(** * Tiered conversational memory: [MemoryManager] of memory.py

    A shallow embedding of the class [MemoryManager] (memory.py) and the
    properties of its short-term buffer, its consolidation trigger, its
    long-term placeholders and its prompt composer.

    Python values are modelled as follows.
    - [int] is [Z] (unbounded); [%] on a positive modulus is [Z.modulo].
    - [str] is [string]; [str.lower] maps the letters A-Z to a-z, which
      decides [role.lower() == "user"] exactly as Python does; a slice
      [s[:60]] is [substring 0 60 s].
    - a [list] of [str] is [list string]; [l.pop(0)] on the empty list raises
      [IndexError].
    - a method is a computation in [M]: it takes the world (the object's
      attributes and the trace of external effects) and gives back an outcome,
      a returned value or a raised exception, together with the world as the
      method left it.  A raised exception keeps the mutations done before it. *)

From Stdlib Require Import ZArith List String Ascii Bool Lia.
Import ListNotations.

Local Open Scope string_scope.
Local Open Scope Z_scope.

(** ** Python primitives *)

Module Py.

(** The one-character string of a line feed. *)
Definition nl : string := String (ascii_of_nat 10) EmptyString.

(** [sep.join(parts)]. *)
Fixpoint join (sep : string) (parts : list string) : string :=
  match parts with
  | [] => ""
  | [p] => p
  | p :: rest => p ++ sep ++ join sep rest
  end.

Definition lower_char (c : ascii) : ascii :=
  let n := nat_of_ascii c in
  if (65 <=? n)%nat && (n <=? 90)%nat then ascii_of_nat (n + 32) else c.

(** [s.lower()]. *)
Fixpoint lower (s : string) : string :=
  match s with
  | EmptyString => EmptyString
  | String c rest => String (lower_char c) (lower rest)
  end.

(** [s[:n]]. *)
Definition slice_to (n : nat) (s : string) : string := substring 0 n s.

End Py.

(** ** Exceptions, outcomes and the world *)

Inductive exn : Type :=
| IndexError (msg : string)
| DelegateError (msg : string).

Inductive outcome (A : Type) : Type :=
| Return (a : A)
| Raise (e : exn).
Arguments Return {A} a.
Arguments Raise {A} e.

(** What a call does outside the object: a line written by [print], or a call
    of the injected language-model module with the prompt it was given. *)
Inductive event : Type :=
| Printed (line : string)
| LLMCall (prompt : string).

(** The attributes set by [__init__].  The two Chroma handles are
    placeholders that the code only ever sets to [None]. *)
Record MemoryManager : Type := mkMemoryManager {
  short_term : list string;
  short_term_limit : Z;
  chroma_client : option unit;
  collection : option (list string);
  user_message_count : Z
}.

Record World : Type := mkWorld {
  self : MemoryManager;
  trace : list event
}.

Definition M (A : Type) : Type := World -> outcome A * World.

Definition ret {A} (a : A) : M A := fun w => (Return a, w).

Definition raise {A} (e : exn) : M A := fun w => (Raise e, w).

Definition bind {A B} (c : M A) (k : A -> M B) : M B :=
  fun w =>
    match c w with
    | (Return a, w') => k a w'
    | (Raise e, w') => (Raise e, w')
    end.

Declare Scope py_scope.
Delimit Scope py_scope with py.
Notation "x <- c ;; k" := (bind c (fun x => k))
  (at level 100, c at next level, right associativity) : py_scope.
Notation "c ;; k" := (bind c (fun _ => k))
  (at level 100, right associativity) : py_scope.
Local Open Scope py_scope.

Definition get_self : M MemoryManager := fun w => (Return (self w), w).

Definition set_short_term (buf : list string) : M unit :=
  fun w =>
    let s := self w in
    (Return tt,
     mkWorld (mkMemoryManager buf (short_term_limit s) (chroma_client s)
                              (collection s) (user_message_count s))
             (trace w)).

Definition set_user_message_count (n : Z) : M unit :=
  fun w =>
    let s := self w in
    (Return tt,
     mkWorld (mkMemoryManager (short_term s) (short_term_limit s)
                              (chroma_client s) (collection s) n)
             (trace w)).

Definition emit (e : event) : M unit :=
  fun w => (Return tt, mkWorld (self w) (trace w ++ [e])%list).

(** [print(line)]. *)
Definition print (line : string) : M unit := emit (Printed line).

(** The injected language-model module: [generate_response_for_memory]
    answers a prompt with a string or raises. *)
Record LLMModule : Type := mkLLMModule {
  generate_response_for_memory : string -> outcome string
}.

Definition call_llm (llm : LLMModule) (prompt : string) : M string :=
  emit (LLMCall prompt) ;;
  match generate_response_for_memory llm prompt with
  | Return s => ret s
  | Raise e => raise e
  end.

(** ** The class *)

(** [__init__(self, short_term_limit=10)]. *)
Definition default_short_term_limit : Z := 10.

Definition init (limit : Z) : MemoryManager :=
  mkMemoryManager [] limit None None 0.

Definition fresh (limit : Z) : World := mkWorld (init limit) [].

(** [self.short_term.append(line)]. *)
Definition short_term_append (line : string) : M unit :=
  s <- get_self ;;
  set_short_term (short_term s ++ [line])%list.

(** [self.short_term.pop(0)]. *)
Definition short_term_pop0 : M string :=
  s <- get_self ;;
  match short_term s with
  | [] => raise (IndexError "pop from empty list")
  | oldest :: rest => set_short_term rest ;; ret oldest
  end.

(** [while len(buf) > limit: buf.pop(0)], on the list itself: the outcome and
    the list left behind.  Every iteration that does not raise removes one
    element, so the loop is structurally recursive on the list;
    [evict_while_over_limit_unfold] below shows that it is the loop over
    [short_term_pop0]. *)
Fixpoint evict (limit : Z) (buf : list string) : outcome unit * list string :=
  if Z.of_nat (List.length buf) >? limit then
    match buf with
    | [] => (Raise (IndexError "pop from empty list"), buf)
    | _ :: rest => evict limit rest
    end
  else (Return tt, buf).

Definition evict_while_over_limit : M unit :=
  fun w =>
    let s := self w in
    match evict (short_term_limit s) (short_term s) with
    | (r, buf) =>
        (r, mkWorld (mkMemoryManager buf (short_term_limit s) (chroma_client s)
                                     (collection s) (user_message_count s))
                    (trace w))
    end.

Definition add_to_short_term (role content : string) : M unit :=
  short_term_append (role ++ ": " ++ content) ;;
  evict_while_over_limit ;;
  if String.eqb (Py.lower role) "user" then
    s <- get_self ;;
    set_user_message_count (user_message_count s + 1)
  else ret tt.

Definition get_short_term_context : M (list string) :=
  s <- get_self ;;
  ret (short_term s).

Definition store_long_term_memory (summary : string) : M unit :=
  print ("[Memory] Storing summary in long-term DB: "
           ++ Py.slice_to 60 summary ++ "...").

(** The summarization prompt: the lines of the triple-quoted literal after the
    first carry the twelve spaces of the source's indentation. *)
Definition indent12 : string := "            ".

Definition summarization_prompt (conversation_text : string) : string :=
  "Summarize the following conversation into key points or Q&A pairs:" ++ Py.nl
  ++ indent12 ++ "---" ++ Py.nl
  ++ indent12 ++ conversation_text ++ Py.nl
  ++ indent12 ++ "---" ++ Py.nl
  ++ indent12
  ++ "Return the most important facts or topics that should be remembered.".

Definition maybe_summarize_short_term (llm : LLMModule) : M unit :=
  s <- get_self ;;
  if (user_message_count s mod 10 =? 0) && (user_message_count s >? 0) then
    print "[Memory] Summarizing short-term memory..." ;;
    s1 <- get_self ;;
    let conversation_text := Py.join Py.nl (short_term s1) in
    let prompt := summarization_prompt conversation_text in
    summary <- call_llm llm prompt ;;
    print ("[Memory] Summarization result: " ++ summary) ;;
    store_long_term_memory summary
  else ret tt.

Definition get_relevant_memories (query : string) : M (list string) :=
  print ("[Memory] Searching for relevant memories for: " ++ query) ;;
  ret [].

Definition build_llm_prompt (user_message : string)
    (relevant_memories : list string) : M string :=
  let memories_text := Py.join Py.nl relevant_memories in
  s <- get_self ;;
  let short_term_text := Py.join Py.nl (short_term s) in
  ret (Py.nl
       ++ "You are a helpful assistant. Below are relevant facts from memory:"
       ++ Py.nl ++ memories_text ++ Py.nl
       ++ Py.nl
       ++ "Here is the recent conversation:" ++ Py.nl
       ++ short_term_text ++ Py.nl
       ++ Py.nl
       ++ "Now the user says:" ++ Py.nl
       ++ "User: " ++ user_message ++ Py.nl
       ++ Py.nl
       ++ "Please respond in a clear and concise manner." ++ Py.nl).

(** ** Sequences of calls *)

(** The line [add_to_short_term] appends: the f-string [role: content]. *)
Definition rendered_turn (call : string * string) : string :=
  fst call ++ ": " ++ snd call.

(** [role.lower() == "user"]. *)
Definition is_user_role (role : string) : bool :=
  String.eqb (Py.lower role) "user".

(** A run of [add_to_short_term] calls, one after the other, as a script
    makes them: a raised exception ends the run. *)
Fixpoint add_all (calls : list (string * string)) : M unit :=
  match calls with
  | [] => ret tt
  | (role, content) :: rest => add_to_short_term role content ;; add_all rest
  end.

(** The number of calls of a run whose role is the user's. *)
Definition user_calls (calls : list (string * string)) : Z :=
  Z.of_nat (List.length (filter (fun c => is_user_role (fst c)) calls)).

(** The [k] last elements of a list, in the list's order. *)
Definition most_recent {A} (k : nat) (l : list A) : list A :=
  skipn (List.length l - k) l.

(** A call of the public interface. *)
Inductive call : Type :=
| AddToShortTerm (role content : string)
| GetShortTermContext
| MaybeSummarizeShortTerm (llm : LLMModule)
| StoreLongTermMemory (summary : string)
| GetRelevantMemories (query : string)
| BuildLlmPrompt (user_message : string) (relevant_memories : list string).

(** The world a call leaves behind, whether it returned or raised. *)
Definition after (c : call) (w : World) : World :=
  match c with
  | AddToShortTerm role content => snd (add_to_short_term role content w)
  | GetShortTermContext => snd (get_short_term_context w)
  | MaybeSummarizeShortTerm llm => snd (maybe_summarize_short_term llm w)
  | StoreLongTermMemory summary => snd (store_long_term_memory summary w)
  | GetRelevantMemories query => snd (get_relevant_memories query w)
  | BuildLlmPrompt msg mems => snd (build_llm_prompt msg mems w)
  end.

(** The world after a sequence of calls by a caller that goes on after an
    exception; the worlds of a caller that stops at the first one are among
    them. *)
Definition after_all (calls : list call) (w : World) : World :=
  fold_left (fun w c => after c w) calls w.

(** The trigger of [maybe_summarize_short_term] fires when the call does
    anything at all: it then prints and calls the language-model module. *)
Definition fires (llm : LLMModule) (w : World) : Prop :=
  trace (snd (maybe_summarize_short_term llm w)) <> trace w.

(** [n] is a positive multiple of [K]. *)
Definition positive_multiple (K n : Z) : Prop :=
  0 < n /\ n mod K = 0.

(** ** Notions used by the statements *)

(** The world [add_to_short_term] leaves when the limit is not negative. *)
Definition added (role content : string) (w : World) : World :=
  let s := self w in
  mkWorld
    (mkMemoryManager
       (most_recent (Z.to_nat (short_term_limit s))
                    (short_term s ++ [rendered_turn (role, content)])%list)
       (short_term_limit s) (chroma_client s) (collection s)
       (user_message_count s + (if is_user_role role then 1 else 0)))
    (trace w).

(** The invariant of the buffer: it holds no more lines than the limit. *)
Definition within_limit (w : World) : Prop :=
  Z.of_nat (List.length (short_term (self w))) <= short_term_limit (self w).

(** The test of [maybe_summarize_short_term] on the counter. *)
Definition trigger_condition (n : Z) : bool := (n mod 10 =? 0) && (n >? 0).

(** The events of a firing whose delegate call returned [summary]. *)
Definition firing_events (buf : list string) (summary : string) : list event :=
  [ Printed "[Memory] Summarizing short-term memory...";
    LLMCall (summarization_prompt (Py.join Py.nl buf));
    Printed ("[Memory] Summarization result: " ++ summary);
    Printed ("[Memory] Storing summary in long-term DB: "
             ++ Py.slice_to 60 summary ++ "...") ].

(** The events of a firing whose delegate call raised. *)
Definition failed_firing_events (buf : list string) : list event :=
  [ Printed "[Memory] Summarizing short-term memory...";
    LLMCall (summarization_prompt (Py.join Py.nl buf)) ].

(** A delegate that answers every prompt with the same summary, and one that
    fails on every prompt. *)
Definition constant_llm (summary : string) : LLMModule :=
  mkLLMModule (fun _ => Return summary).

Definition failing_llm (msg : string) : LLMModule :=
  mkLLMModule (fun _ => Raise (DelegateError msg)).

(** The world after the two user turns and one agent turn of the scenario,
    and the default manager after [n] user turns. *)
Definition scenario_world : World :=
  snd (add_all [("USER", "a"); ("AGENT", "x"); ("USER", "b")] (fresh 3)).

Definition after_user_turns (n : nat) : World :=
  snd (add_all (repeat ("user", "hello") n) (fresh default_short_term_limit)).

(** The fixed text around the three sections of the prompt. *)
Definition facts_heading : string :=
  Py.nl ++ "You are a helpful assistant. Below are relevant facts from memory:"
  ++ Py.nl.

Definition conversation_heading : string :=
  Py.nl ++ Py.nl ++ "Here is the recent conversation:" ++ Py.nl.

Definition message_heading : string :=
  Py.nl ++ Py.nl ++ "Now the user says:" ++ Py.nl ++ "User: ".

Definition closing_instruction : string :=
  Py.nl ++ Py.nl ++ "Please respond in a clear and concise manner." ++ Py.nl.

(** The three sections laid out between the fixed texts. *)
Definition laid_out (facts recent message : string) : string :=
  facts_heading ++ facts
  ++ conversation_heading ++ recent
  ++ message_heading ++ message
  ++ closing_instruction.

(** ** Notions used by the further properties *)

(** The appends among a sequence of interface calls, in their order. *)
Fixpoint appends_of (calls : list call) : list (string * string) :=
  match calls with
  | [] => []
  | AddToShortTerm role content :: rest => (role, content) :: appends_of rest
  | _ :: rest => appends_of rest
  end.

(** The number of delegate calls recorded in a trace. *)
Fixpoint llm_calls (tr : list event) : Z :=
  match tr with
  | [] => 0
  | LLMCall _ :: rest => 1 + llm_calls rest
  | Printed _ :: rest => llm_calls rest
  end.

(** The call of [maybe_summarize_short_term] called the delegate: the trace
    it leaves has one delegate call more. *)
Definition calls_delegate (llm : LLMModule) (w : World) : Prop :=
  llm_calls (trace (snd (maybe_summarize_short_term llm w)))
    = llm_calls (trace w) + 1.

(** The strings of a list one after the other, with nothing between. *)
Fixpoint glue (parts : list string) : string :=
  match parts with
  | [] => ""
  | p :: rest => p ++ glue rest
  end.

(** A conversation in which each line is appended and the summarization
    check is made right after it: the two methods, one after the other, for
    every line. *)
Fixpoint append_and_check (llm : LLMModule) (turns : list (string * string))
    : M unit :=
  match turns with
  | [] => ret tt
  | (role, content) :: rest =>
      add_to_short_term role content ;;
      maybe_summarize_short_term llm ;;
      append_and_check llm rest
  end.

(** A delegate that answers every prompt. *)
Definition never_raises (llm : LLMModule) : Prop :=
  forall prompt : string,
    exists summary : string,
      generate_response_for_memory llm prompt = Return summary.

(** No character of the string is a colon. *)
Fixpoint colon_free (s : string) : Prop :=
  match s with
  | EmptyString => True
  | String c rest => c <> ":"%char /\ colon_free rest
  end.

(** ** The buffer as a list object *)

(** Python lists are objects: [self.short_term] holds a reference, [append]
    and [pop] change the object in place, and [get_short_term_context]
    returns the reference.  This second embedding of the methods on the
    buffer keeps the list objects in a store, by address. *)
Module Shared.

Definition address : Type := nat.

Record Store : Type := mkStore {
  cells : address -> list string;
  next_address : address
}.

Definition read (st : Store) (a : address) : list string := cells st a.

Definition write (st : Store) (a : address) (v : list string) : Store :=
  mkStore (fun a' => if Nat.eqb a' a then v else cells st a') (next_address st).

(** A new empty list, [[]]. *)
Definition alloc (st : Store) : address * Store :=
  (next_address st,
   mkStore (fun a' => if Nat.eqb a' (next_address st) then [] else cells st a')
           (S (next_address st))).

Record Manager : Type := mkManager {
  short_term : address;
  short_term_limit : Z;
  chroma_client : option unit;
  collection : option (list string);
  user_message_count : Z
}.

Definition init (limit : Z) (st : Store) : Manager * Store :=
  let (a, st') := alloc st in
  (mkManager a limit None None 0, st').

Definition add_to_short_term (role content : string) (m : Manager) (st : Store)
    : outcome unit * Manager * Store :=
  let a := short_term m in
  let line := role ++ ": " ++ content in
  let st1 := write st a (read st a ++ [line])%list in
  match evict (short_term_limit m) (read st1 a) with
  | (Raise e, buf) => (Raise e, m, write st1 a buf)
  | (Return _, buf) =>
      let st2 := write st1 a buf in
      if String.eqb (Py.lower role) "user" then
        (Return tt,
         mkManager a (short_term_limit m) (chroma_client m) (collection m)
                   (user_message_count m + 1),
         st2)
      else (Return tt, m, st2)
  end.

Definition get_short_term_context (m : Manager) (st : Store) : address :=
  short_term m.

Fixpoint add_all (calls : list (string * string)) (m : Manager) (st : Store)
    : outcome unit * Manager * Store :=
  match calls with
  | [] => (Return tt, m, st)
  | (role, content) :: rest =>
      match add_to_short_term role content m st with
      | (Return _, m', st') => add_all rest m' st'
      | (Raise e, m', st') => (Raise e, m', st')
      end
  end.

End Shared.

(** The manager of the first embedding that a manager and a store of the
    second stand for. *)
Definition shared_view (m : Shared.Manager) (st : Shared.Store) : MemoryManager :=
  mkMemoryManager (Shared.read st (Shared.short_term m))
                  (Shared.short_term_limit m) (Shared.chroma_client m)
                  (Shared.collection m) (Shared.user_message_count m).

(** ** Proofs *)

Ltac run_py :=
  unfold add_to_short_term, short_term_append, evict_while_over_limit,
    get_short_term_context, maybe_summarize_short_term, call_llm,
    store_long_term_memory, get_relevant_memories, build_llm_prompt,
    print, emit, set_short_term, set_user_message_count, get_self,
    bind, ret, raise;
  simpl.

(** ** The eviction loop *)

Section Eviction.

Variable limit : Z.

(** One step of the loop, as the source writes it. *)
Lemma evict_step (buf : list string) :
  evict limit buf =
    if Z.of_nat (List.length buf) >? limit then
      match buf with
      | [] => (Raise (IndexError "pop from empty list"), buf)
      | _ :: rest => evict limit rest
      end
    else (Return tt, buf).
Proof. destruct buf; reflexivity. Qed.

Lemma evict_within (buf : list string) :
  Z.of_nat (List.length buf) <= limit -> evict limit buf = (Return tt, buf).
Proof.
  intros Hle. rewrite evict_step.
  destruct (Z.gtb_spec (Z.of_nat (List.length buf)) limit); [lia | reflexivity].
Qed.

Hypothesis limit_nonneg : 0 <= limit.

(** With a limit that is not negative the loop never pops from an empty
    list, and it keeps the last [limit] lines. *)
Lemma evict_most_recent (buf : list string) :
  evict limit buf = (Return tt, most_recent (Z.to_nat limit) buf).
Proof.
  unfold most_recent. induction buf as [| x rest IH].
  - simpl. destruct (Z.gtb_spec 0 limit); [lia | reflexivity].
  - rewrite evict_step.
    destruct (Z.gtb_spec (Z.of_nat (List.length (x :: rest))) limit) as [Hgt | Hle].
    + rewrite IH. f_equal. simpl List.length in *.
      replace (S (List.length rest) - Z.to_nat limit)%nat
        with (S (List.length rest - Z.to_nat limit))%nat by lia.
      reflexivity.
    + simpl List.length in *.
      replace (S (List.length rest) - Z.to_nat limit)%nat with 0%nat by lia.
      reflexivity.
Qed.

End Eviction.

(** With a negative limit the loop empties the list and then pops once more. *)
Lemma evict_negative (limit : Z) (buf : list string) :
  limit < 0 ->
  evict limit buf = (Raise (IndexError "pop from empty list"), []).
Proof.
  intros Hneg. induction buf as [| x rest IH]; rewrite evict_step.
  - destruct (Z.gtb_spec (Z.of_nat (@List.length string [])) limit);
      [reflexivity | simpl in *; lia].
  - destruct (Z.gtb_spec (Z.of_nat (List.length (x :: rest))) limit);
      [exact IH | lia].
Qed.

(** The loop of [add_to_short_term] is the source's [while]: test, pop the
    oldest line, go round again. *)
Lemma evict_while_over_limit_unfold (w : World) :
  evict_while_over_limit w =
    if Z.of_nat (List.length (short_term (self w))) >? short_term_limit (self w)
    then (short_term_pop0 ;; evict_while_over_limit) w
    else (Return tt, w).
Proof.
  destruct w as [[buf lim cli col cnt] tr].
  unfold evict_while_over_limit, bind, short_term_pop0, get_self; simpl.
  rewrite evict_step.
  destruct (Z.of_nat (List.length buf) >? lim); [| reflexivity].
  destruct buf as [| x rest]; reflexivity.
Qed.

(** ** Facts on [most_recent] *)

Section MostRecent.

Context {A : Type}.

Lemma most_recent_length (k : nat) (l : list A) :
  List.length (most_recent k l) = Nat.min k (List.length l).
Proof. unfold most_recent. rewrite length_skipn. lia. Qed.

Lemma most_recent_all (k : nat) (l : list A) :
  (List.length l <= k)%nat -> most_recent k l = l.
Proof.
  intros Hle. unfold most_recent.
  replace (List.length l - k)%nat with 0%nat by lia. reflexivity.
Qed.

(** The lines kept are the end of the list: what is missing was at the
    front. *)
Lemma most_recent_suffix (k : nat) (l : list A) :
  (firstn (List.length l - k) l ++ most_recent k l)%list = l.
Proof. unfold most_recent. apply firstn_skipn. Qed.

(** Keeping [k], appending, and keeping [k] again is keeping [k] of the
    whole. *)
Lemma most_recent_app (k : nat) (l l' : list A) :
  most_recent k (most_recent k l ++ l')%list = most_recent k (l ++ l')%list.
Proof.
  unfold most_recent at 1 3.
  rewrite !length_app, most_recent_length.
  unfold most_recent. rewrite !skipn_app, skipn_skipn, length_skipn.
  f_equal.
  - f_equal. lia.
  - f_equal. lia.
Qed.

Lemma most_recent_min (k : nat) (l : list A) :
  most_recent (Nat.min k (List.length l)) l = most_recent k l.
Proof. unfold most_recent. f_equal. lia. Qed.

End MostRecent.

(** ** What one call does *)

Lemma add_to_short_term_returns (role content : string) (w : World) :
  0 <= short_term_limit (self w) ->
  add_to_short_term role content w = (Return tt, added role content w).
Proof.
  intros Hlim. destruct w as [[buf lim cli col cnt] tr]. simpl in Hlim.
  run_py. rewrite (evict_most_recent lim Hlim).
  unfold added, is_user_role, rendered_turn. simpl.
  destruct (String.eqb (Py.lower role) "user"); simpl.
  - reflexivity.
  - rewrite Z.add_0_r. reflexivity.
Qed.

(** With a negative limit the call empties the buffer, raises [IndexError]
    from [pop(0)] and does not reach the counter. *)
Lemma add_to_short_term_negative_limit (role content : string) (w : World) :
  short_term_limit (self w) < 0 ->
  add_to_short_term role content w =
    (Raise (IndexError "pop from empty list"),
     mkWorld (mkMemoryManager [] (short_term_limit (self w))
                (chroma_client (self w)) (collection (self w))
                (user_message_count (self w)))
             (trace w)).
Proof.
  intros Hlim. destruct w as [[buf lim cli col cnt] tr]. simpl in Hlim.
  run_py. rewrite (evict_negative lim _ Hlim). reflexivity.
Qed.

Lemma within_limit_nonneg (w : World) :
  within_limit w -> 0 <= short_term_limit (self w).
Proof. unfold within_limit. lia. Qed.

Lemma fresh_within_limit (N : Z) : 0 <= N -> within_limit (fresh N).
Proof. unfold within_limit. simpl. lia. Qed.

Lemma added_within_limit (role content : string) (w : World) :
  0 <= short_term_limit (self w) -> within_limit (added role content w).
Proof.
  intros Hlim. unfold within_limit, added. simpl.
  rewrite most_recent_length. lia.
Qed.

(** A run of appends from any world that satisfies the invariant. *)
Lemma add_all_returns (calls : list (string * string)) :
  forall w : World,
    within_limit w ->
    add_all calls w =
      (Return tt,
       mkWorld
         (mkMemoryManager
            (most_recent (Z.to_nat (short_term_limit (self w)))
                         (short_term (self w) ++ map rendered_turn calls)%list)
            (short_term_limit (self w)) (chroma_client (self w))
            (collection (self w))
            (user_message_count (self w) + user_calls calls))
         (trace w)).
Proof.
  induction calls as [| [role content] rest IH]; intros w Hw.
  - destruct w as [[buf lim cli col cnt] tr]. unfold within_limit in Hw.
    simpl in *. unfold ret, user_calls. simpl.
    rewrite app_nil_r, Z.add_0_r, most_recent_all by lia. reflexivity.
  - pose proof (within_limit_nonneg w Hw) as Hlim.
    simpl. unfold bind at 1.
    rewrite (add_to_short_term_returns role content w Hlim).
    rewrite (IH _ (added_within_limit role content w Hlim)).
    unfold added. simpl. rewrite most_recent_app, <- app_assoc. simpl.
    do 3 f_equal. unfold user_calls. simpl.
    destruct (is_user_role role); simpl List.length; lia.
Qed.

(** What the other calls leave of the object. *)

Lemma trigger_condition_spec (n : Z) :
  trigger_condition n = true <-> positive_multiple 10 n.
Proof.
  unfold trigger_condition, positive_multiple.
  rewrite andb_true_iff, Z.eqb_eq, Z.gtb_gt. lia.
Qed.

Lemma maybe_summarize_idle (llm : LLMModule) (w : World) :
  trigger_condition (user_message_count (self w)) = false ->
  maybe_summarize_short_term llm w = (Return tt, w).
Proof.
  unfold trigger_condition. intros Hc. run_py. rewrite Hc. reflexivity.
Qed.

Lemma maybe_summarize_stores (llm : LLMModule) (w : World) (summary : string) :
  trigger_condition (user_message_count (self w)) = true ->
  generate_response_for_memory llm
    (summarization_prompt (Py.join Py.nl (short_term (self w)))) = Return summary ->
  maybe_summarize_short_term llm w =
    (Return tt,
     mkWorld (self w) (trace w ++ firing_events (short_term (self w)) summary)%list).
Proof.
  unfold trigger_condition. intros Hc Hllm. run_py. rewrite Hc. simpl.
  rewrite Hllm. simpl. unfold firing_events.
  rewrite <- !app_assoc. reflexivity.
Qed.

Lemma maybe_summarize_raises (llm : LLMModule) (w : World) (e : exn) :
  trigger_condition (user_message_count (self w)) = true ->
  generate_response_for_memory llm
    (summarization_prompt (Py.join Py.nl (short_term (self w)))) = Raise e ->
  maybe_summarize_short_term llm w =
    (Raise e,
     mkWorld (self w) (trace w ++ failed_firing_events (short_term (self w)))%list).
Proof.
  unfold trigger_condition. intros Hc Hllm. run_py. rewrite Hc. simpl.
  rewrite Hllm. simpl. unfold failed_firing_events.
  rewrite <- !app_assoc. reflexivity.
Qed.

(** [maybe_summarize_short_term] never touches the object. *)
Lemma maybe_summarize_self (llm : LLMModule) (w : World) :
  self (snd (maybe_summarize_short_term llm w)) = self w.
Proof.
  destruct (trigger_condition (user_message_count (self w))) eqn:Hc.
  - destruct (generate_response_for_memory llm
                (summarization_prompt (Py.join Py.nl (short_term (self w)))))
      as [summary | e] eqn:Hllm.
    + rewrite (maybe_summarize_stores llm w summary Hc Hllm). reflexivity.
    + rewrite (maybe_summarize_raises llm w e Hc Hllm). reflexivity.
  - rewrite (maybe_summarize_idle llm w Hc). reflexivity.
Qed.

(** Only [add_to_short_term] changes the object. *)
Lemma after_self (c : call) (w : World) :
  (forall role content, c <> AddToShortTerm role content) ->
  self (after c w) = self w.
Proof.
  intros Hc. destruct c; simpl; try reflexivity.
  - exfalso. eapply Hc. reflexivity.
  - apply maybe_summarize_self.
Qed.

Lemma add_to_short_term_count (role content : string) (w : World) :
  user_message_count (self w)
  <= user_message_count (self (snd (add_to_short_term role content w))).
Proof.
  destruct (Z.le_gt_cases 0 (short_term_limit (self w))) as [Hlim | Hlim].
  - rewrite (add_to_short_term_returns role content w Hlim). simpl.
    destruct (is_user_role role); lia.
  - rewrite (add_to_short_term_negative_limit role content w Hlim). simpl. lia.
Qed.

Lemma after_count (c : call) (w : World) :
  user_message_count (self w) <= user_message_count (self (after c w)).
Proof.
  destruct c as [role content | | llm | summary | query | msg mems].
  1: apply add_to_short_term_count.
  all: rewrite after_self; [lia | intros; discriminate].
Qed.

Lemma after_all_count (calls : list call) :
  forall w : World,
    user_message_count (self w) <= user_message_count (self (after_all calls w)).
Proof.
  unfold after_all. induction calls as [| c rest IH]; intros w; simpl.
  - lia.
  - etransitivity; [apply (after_count c) | apply IH].
Qed.

(** The counter after a run of appends, from any world whose limit is not
    negative (the buffer may hold anything). *)
Lemma add_all_count (calls : list (string * string)) (w : World) :
  0 <= short_term_limit (self w) ->
  exists w' : World,
    add_all calls w = (Return tt, w') /\
    user_message_count (self w')
      = user_message_count (self w) + user_calls calls.
Proof.
  intros Hlim. destruct calls as [| [role content] rest].
  - exists w. split; [reflexivity |]. unfold user_calls. simpl. lia.
  - simpl. unfold bind at 1.
    rewrite (add_to_short_term_returns role content w Hlim).
    rewrite (add_all_returns rest _ (added_within_limit role content w Hlim)).
    eexists. split; [reflexivity |]. simpl. unfold user_calls. simpl.
    destruct (is_user_role role); simpl List.length; lia.
Qed.

(** ** The short-term buffer *)

(** The scenario of a buffer of three lines: two user turns and one agent turn
    fill it, a fourth line evicts the oldest and leaves the counter alone. *)
Example scenario_three_appends :
  add_all [("USER", "a"); ("AGENT", "x"); ("USER", "b")] (fresh 3) =
    (Return tt,
     mkWorld (mkMemoryManager ["USER: a"; "AGENT: x"; "USER: b"] 3 None None 2) []).
Proof. vm_compute. reflexivity. Qed.

Example scenario_fourth_append :
  add_all [("USER", "a"); ("AGENT", "x"); ("USER", "b"); ("AGENT", "y")] (fresh 3) =
    (Return tt,
     mkWorld (mkMemoryManager ["AGENT: x"; "USER: b"; "AGENT: y"] 3 None None 2) []).
Proof. vm_compute. reflexivity. Qed.

Example capacity_zero_keeps_nothing :
  add_all [("user", "a"); ("AI", "x")] (fresh 0) =
    (Return tt, mkWorld (mkMemoryManager [] 0 None None 1) []).
Proof. vm_compute. reflexivity. Qed.

(** C1. For every capacity [N] (a number of lines, so not negative) and every
    run of [add_to_short_term] calls on a new manager, the run completes, the
    buffer holds no more than [N] lines, and it holds exactly the
    [min N (number of calls)] lines appended last, in the order of the calls:
    the lines missing from it are the oldest.  The run is any run, so the
    statement holds after each call of a longer one. *)
Theorem short_term_holds_most_recent (N : Z) (calls : list (string * string)) :
  0 <= N ->
  exists w' : World,
    add_all calls (fresh N) = (Return tt, w') /\
    Z.of_nat (List.length (short_term (self w'))) <= N /\
    List.length (short_term (self w'))
      = Nat.min (Z.to_nat N) (List.length calls) /\
    short_term (self w')
      = most_recent (Nat.min (Z.to_nat N) (List.length calls))
                    (map rendered_turn calls) /\
    exists evicted : list string,
      map rendered_turn calls = (evicted ++ short_term (self w'))%list.
Proof.
  intros HN. eexists. split.
  - apply add_all_returns, fresh_within_limit, HN.
  - simpl. rewrite most_recent_length, length_map.
    repeat split.
    + lia.
    + rewrite <- (length_map rendered_turn calls), most_recent_min.
      reflexivity.
    + eexists. symmetry. apply most_recent_suffix.
Qed.

Lemma short_term_holds_most_recent_witness :
  0 <= 2 /\
  exists w' : World,
    add_all [("User", "hi"); ("AI", "hello"); ("User", "bye")] (fresh 2)
      = (Return tt, w') /\
    Z.of_nat (List.length (short_term (self w'))) <= 2 /\
    List.length (short_term (self w')) = Nat.min (Z.to_nat 2) 3 /\
    short_term (self w')
      = most_recent (Nat.min (Z.to_nat 2) 3)
          (map rendered_turn [("User", "hi"); ("AI", "hello"); ("User", "bye")]) /\
    exists evicted : list string,
      map rendered_turn [("User", "hi"); ("AI", "hello"); ("User", "bye")]
        = (evicted ++ short_term (self w'))%list.
Proof.
  split.
  - lia.
  - apply (short_term_holds_most_recent 2
             [("User", "hi"); ("AI", "hello"); ("User", "bye")]).
    lia.
Defined.

(** C2. After a run of [add_to_short_term] calls, [user_message_count] has
    grown by the number of calls whose role, lowercased, is "user", whatever
    the limit made the buffer evict; such a run completes whenever the limit is
    not negative; and no call of the interface, returning or raising, ever
    lowers the counter. *)
Theorem user_message_count_counts_user_calls (w : World) :
  (forall (calls : list (string * string)) (w' : World),
      add_all calls w = (Return tt, w') ->
      user_message_count (self w')
        = user_message_count (self w) + user_calls calls) /\
  (forall calls : list (string * string),
      0 <= short_term_limit (self w) ->
      exists w' : World, add_all calls w = (Return tt, w')) /\
  (forall c : call,
      user_message_count (self w) <= user_message_count (self (after c w))) /\
  (forall cs : list call,
      user_message_count (self w) <= user_message_count (self (after_all cs w))).
Proof.
  split; [| split; [| split]].
  - intros calls w' Hrun.
    destruct (Z.le_gt_cases 0 (short_term_limit (self w))) as [Hlim | Hlim].
    + destruct (add_all_count calls w Hlim) as [w'' [Hrun' Hcount]].
      rewrite Hrun in Hrun'. injection Hrun' as ->. exact Hcount.
    + destruct calls as [| [role content] rest].
      * simpl in Hrun. unfold ret in Hrun. injection Hrun as <-.
        unfold user_calls. simpl. lia.
      * simpl in Hrun. unfold bind in Hrun at 1.
        rewrite (add_to_short_term_negative_limit role content w Hlim) in Hrun.
        discriminate.
  - intros calls Hlim.
    destruct (add_all_count calls w Hlim) as [w' [Hrun _]].
    exists w'. exact Hrun.
  - intros c. apply after_count.
  - intros cs. apply after_all_count.
Qed.

Lemma user_message_count_counts_user_calls_witness :
  add_all [("User", "a"); ("AI", "b"); ("USER", "c"); ("user", "d")] (fresh 1)
    = (Return tt,
       mkWorld (mkMemoryManager ["user: d"] 1 None None 3) []) /\
  user_message_count
    (self (mkWorld (mkMemoryManager ["user: d"] 1 None None 3) []))
    = user_message_count (self (fresh 1))
      + user_calls [("User", "a"); ("AI", "b"); ("USER", "c"); ("user", "d")].
Proof.
  split.
  - vm_compute. reflexivity.
  - apply (proj1 (user_message_count_counts_user_calls (fresh 1))
             [("User", "a"); ("AI", "b"); ("USER", "c"); ("user", "d")]).
    vm_compute. reflexivity.
Defined.

(** C9, as the code has it. With a [short_term_limit] that is not negative,
    [add_to_short_term] returns for every role and every content, in every
    state of the manager. *)
Theorem add_to_short_term_succeeds (w : World) (role content : string) :
  0 <= short_term_limit (self w) ->
  exists w' : World, add_to_short_term role content w = (Return tt, w').
Proof.
  intros Hlim. eexists. apply add_to_short_term_returns, Hlim.
Qed.

Lemma add_to_short_term_succeeds_witness :
  0 <= short_term_limit (self (fresh 0)) /\
  exists w' : World, add_to_short_term "user" "hello" (fresh 0) = (Return tt, w').
Proof.
  split.
  - simpl. lia.
  - apply (add_to_short_term_succeeds (fresh 0) "user" "hello"). simpl. lia.
Defined.

(** C9, as stated, fails: a manager configured with the limit -1 raises
    [IndexError] on its first append, from [pop(0)] on the emptied list. *)
Lemma add_to_short_term_raises_at_minus_one :
  add_to_short_term "user" "hello" (fresh (-1))
    = (Raise (IndexError "pop from empty list"), fresh (-1)).
Proof. vm_compute. reflexivity. Qed.

(** ** The consolidation trigger *)

Lemma app_cons_neq {A} (l l' : list A) (x : A) : (l ++ x :: l')%list <> l.
Proof.
  intros Heq. apply (f_equal (@List.length A)) in Heq.
  rewrite length_app in Heq. simpl in Heq. lia.
Qed.

Lemma llm_calls_app (tr1 tr2 : list event) :
  llm_calls (tr1 ++ tr2)%list = llm_calls tr1 + llm_calls tr2.
Proof.
  induction tr1 as [| [line | prompt] rest IH];
    cbn [llm_calls app]; try rewrite IH; lia.
Qed.

Lemma fires_iff_condition (llm : LLMModule) (w : World) :
  fires llm w <-> trigger_condition (user_message_count (self w)) = true.
Proof.
  unfold fires. split.
  - intros Hfire.
    destruct (trigger_condition (user_message_count (self w))) eqn:Hc;
      [reflexivity |].
    rewrite (maybe_summarize_idle llm w Hc) in Hfire. now elim Hfire.
  - intros Hc.
    destruct (generate_response_for_memory llm
                (summarization_prompt (Py.join Py.nl (short_term (self w)))))
      as [summary | e] eqn:Hllm.
    + rewrite (maybe_summarize_stores llm w summary Hc Hllm).
      apply app_cons_neq.
    + rewrite (maybe_summarize_raises llm w e Hc Hllm).
      apply app_cons_neq.
Qed.

Lemma calls_delegate_iff_condition (llm : LLMModule) (w : World) :
  calls_delegate llm w <-> trigger_condition (user_message_count (self w)) = true.
Proof.
  unfold calls_delegate. split.
  - intros Hcall.
    destruct (trigger_condition (user_message_count (self w))) eqn:Hc;
      [reflexivity |].
    rewrite (maybe_summarize_idle llm w Hc) in Hcall. simpl in Hcall. lia.
  - intros Hc.
    destruct (generate_response_for_memory llm
                (summarization_prompt (Py.join Py.nl (short_term (self w)))))
      as [summary | e] eqn:Hllm.
    + rewrite (maybe_summarize_stores llm w summary Hc Hllm).
      cbn [snd trace]. rewrite llm_calls_app.
      cbn [firing_events llm_calls]. lia.
    + rewrite (maybe_summarize_raises llm w e Hc Hllm).
      cbn [snd trace]. rewrite llm_calls_app.
      cbn [failed_firing_events llm_calls]. lia.
Qed.

(** C3, as the code has it. [maybe_summarize_short_term] summarizes and
    stores exactly when [user_message_count] is a positive multiple of ten,
    the constant of the code.  Exactly then it calls the delegate, once, with
    the summarization prompt of the buffer; with a delegate that answers,
    exactly then it prints the summary and runs [store_long_term_memory] on
    it, and returns; with a delegate that raises, exactly then the exception
    leaves the call before anything is stored.  Otherwise the call returns
    and leaves the world as it was.  Whether the delegate is called depends
    on the counter alone, not on the buffer, the limit or the delegate. *)
Theorem consolidation_fires_on_multiples_of_ten (llm : LLMModule) (w : World) :
  let buf := short_term (self w) in
  let prompt := summarization_prompt (Py.join Py.nl buf) in
  (calls_delegate llm w
   <-> positive_multiple 10 (user_message_count (self w))) /\
  (forall summary : string,
      generate_response_for_memory llm prompt = Return summary ->
      (maybe_summarize_short_term llm w =
         (Return tt,
          mkWorld (self w) (trace w ++ firing_events buf summary)%list)
       <-> positive_multiple 10 (user_message_count (self w)))) /\
  (forall e : exn,
      generate_response_for_memory llm prompt = Raise e ->
      (maybe_summarize_short_term llm w =
         (Raise e,
          mkWorld (self w) (trace w ++ failed_firing_events buf)%list)
       <-> positive_multiple 10 (user_message_count (self w)))) /\
  (~ positive_multiple 10 (user_message_count (self w)) ->
   maybe_summarize_short_term llm w = (Return tt, w)) /\
  (forall (llm' : LLMModule) (w' : World),
      user_message_count (self w') = user_message_count (self w) ->
      (calls_delegate llm' w' <-> calls_delegate llm w)) /\
  (fires llm w <-> positive_multiple 10 (user_message_count (self w))).
Proof.
  intros buf prompt.
  assert (Hidle : ~ positive_multiple 10 (user_message_count (self w)) ->
                  maybe_summarize_short_term llm w = (Return tt, w)).
  { intros Hno. apply maybe_summarize_idle.
    destruct (trigger_condition (user_message_count (self w))) eqn:Hc;
      [| reflexivity].
    exfalso. apply Hno, trigger_condition_spec, Hc. }
  split; [| split; [| split; [| split; [| split]]]].
  - rewrite calls_delegate_iff_condition. apply trigger_condition_spec.
  - intros summary Hllm. split.
    + intros Hrun.
      destruct (trigger_condition (user_message_count (self w))) eqn:Hc;
        [apply trigger_condition_spec, Hc |].
      rewrite (maybe_summarize_idle llm w Hc) in Hrun.
      injection Hrun as Hw. apply (f_equal trace) in Hw. simpl in Hw.
      symmetry in Hw. exfalso. exact (app_cons_neq _ _ _ Hw).
    + intros Hpos. apply maybe_summarize_stores; [| exact Hllm].
      apply trigger_condition_spec, Hpos.
  - intros e Hllm. split.
    + intros Hrun.
      destruct (trigger_condition (user_message_count (self w))) eqn:Hc;
        [apply trigger_condition_spec, Hc |].
      rewrite (maybe_summarize_idle llm w Hc) in Hrun. discriminate Hrun.
    + intros Hpos. apply maybe_summarize_raises; [| exact Hllm].
      apply trigger_condition_spec, Hpos.
  - exact Hidle.
  - intros llm' w' Hcount.
    rewrite !calls_delegate_iff_condition, Hcount. reflexivity.
  - rewrite fires_iff_condition. apply trigger_condition_spec.
Qed.

Lemma consolidation_fires_on_multiples_of_ten_witness :
  positive_multiple 10 (user_message_count (self (after_user_turns 20))) /\
  maybe_summarize_short_term (constant_llm "facts") (after_user_turns 20) =
    (Return tt,
     mkWorld
       (mkMemoryManager (repeat "user: hello" 10) 10 None None 20)
       [ Printed "[Memory] Summarizing short-term memory...";
         LLMCall (summarization_prompt
                    (Py.join Py.nl (repeat "user: hello" 10)));
         Printed "[Memory] Summarization result: facts";
         Printed "[Memory] Storing summary in long-term DB: facts..." ]).
Proof.
  assert (Hpos : positive_multiple 10
                   (user_message_count (self (after_user_turns 20)))).
  { unfold positive_multiple. vm_compute. split; reflexivity. }
  split.
  - exact Hpos.
  - rewrite (proj2 (proj1 (proj2 (consolidation_fires_on_multiples_of_ten
                                    (constant_llm "facts") (after_user_turns 20)))
                      "facts" eq_refl) Hpos).
    vm_compute. reflexivity.
Defined.

(** C3, as stated, fails: no threshold can be configured.  After the two user
    turns of the scenario the counter is a positive multiple of the threshold
    2, and the call does nothing: it returns, calls no delegate and prints
    nothing. *)
Lemma consolidation_idle_at_threshold_two :
  positive_multiple 2 (user_message_count (self scenario_world)) /\
  maybe_summarize_short_term (constant_llm "facts") scenario_world
    = (Return tt, scenario_world) /\
  ~ calls_delegate (constant_llm "facts") scenario_world /\
  ~ fires (constant_llm "facts") scenario_world.
Proof.
  split; [| split; [| split]].
  - unfold positive_multiple. vm_compute. split; reflexivity.
  - vm_compute. reflexivity.
  - unfold calls_delegate. vm_compute. discriminate.
  - unfold fires. vm_compute. intros H. apply H. reflexivity.
Qed.

(** ** Failure of the delegate *)

(** C4, as the code has it. [maybe_summarize_short_term] has no handler:
    when the counter is a positive multiple of ten and the delegate raises on
    the summarization prompt, the same exception leaves the call, after the
    first line was printed and the delegate called; when the delegate returns
    a summary the call returns; and when the counter is no such multiple the
    call returns without calling the delegate. *)
Theorem delegate_failure_propagates (llm : LLMModule) (w : World) :
  (forall e : exn,
      positive_multiple 10 (user_message_count (self w)) ->
      generate_response_for_memory llm
        (summarization_prompt (Py.join Py.nl (short_term (self w)))) = Raise e ->
      maybe_summarize_short_term llm w =
        (Raise e,
         mkWorld (self w)
                 (trace w ++ failed_firing_events (short_term (self w)))%list)) /\
  (forall summary : string,
      positive_multiple 10 (user_message_count (self w)) ->
      generate_response_for_memory llm
        (summarization_prompt (Py.join Py.nl (short_term (self w))))
        = Return summary ->
      maybe_summarize_short_term llm w =
        (Return tt,
         mkWorld (self w)
                 (trace w ++ firing_events (short_term (self w)) summary)%list)) /\
  (~ positive_multiple 10 (user_message_count (self w)) ->
   maybe_summarize_short_term llm w = (Return tt, w)).
Proof.
  split; [| split].
  - intros e Hpos Hllm. apply maybe_summarize_raises; [| exact Hllm].
    apply trigger_condition_spec, Hpos.
  - intros summary Hpos Hllm. apply maybe_summarize_stores; [| exact Hllm].
    apply trigger_condition_spec, Hpos.
  - intros Hidle. apply maybe_summarize_idle.
    destruct (trigger_condition (user_message_count (self w))) eqn:Hc;
      [| reflexivity].
    exfalso. apply Hidle, trigger_condition_spec, Hc.
Qed.

Lemma delegate_failure_propagates_witness :
  positive_multiple 10 (user_message_count (self (after_user_turns 10))) /\
  fst (maybe_summarize_short_term (failing_llm "timeout") (after_user_turns 10))
    = Raise (DelegateError "timeout").
Proof.
  assert (Hpos : positive_multiple 10
                   (user_message_count (self (after_user_turns 10)))).
  { unfold positive_multiple. vm_compute. split; reflexivity. }
  split.
  - exact Hpos.
  - rewrite (proj1 (delegate_failure_propagates
                      (failing_llm "timeout") (after_user_turns 10))
               (DelegateError "timeout") Hpos eq_refl).
    reflexivity.
Defined.

(** C4, as stated, fails: after ten user turns a delegate that raises makes
    [maybe_summarize_short_term] raise the delegate's exception. *)
Lemma delegate_failure_reaches_caller :
  generate_response_for_memory (failing_llm "timeout")
    (summarization_prompt
       (Py.join Py.nl (short_term (self (after_user_turns 10)))))
    = Raise (DelegateError "timeout") /\
  fst (maybe_summarize_short_term (failing_llm "timeout") (after_user_turns 10))
    = Raise (DelegateError "timeout").
Proof. split; vm_compute; reflexivity. Qed.

(** ** Summarization and the buffer *)

Lemma maybe_summarize_raise_inv (llm : LLMModule) (w : World) (e : exn) :
  fst (maybe_summarize_short_term llm w) = Raise e ->
  maybe_summarize_short_term llm w =
    (Raise e,
     mkWorld (self w) (trace w ++ failed_firing_events (short_term (self w)))%list).
Proof.
  intros Hraise.
  destruct (trigger_condition (user_message_count (self w))) eqn:Hc.
  - destruct (generate_response_for_memory llm
                (summarization_prompt (Py.join Py.nl (short_term (self w)))))
      as [summary | e'] eqn:Hllm.
    + rewrite (maybe_summarize_stores llm w summary Hc Hllm) in Hraise.
      discriminate.
    + rewrite (maybe_summarize_raises llm w e' Hc Hllm) in Hraise |- *.
      simpl in Hraise. injection Hraise as ->. reflexivity.
  - rewrite (maybe_summarize_idle llm w Hc) in Hraise. discriminate.
Qed.

(** C5. [maybe_summarize_short_term] leaves the short-term buffer as it was,
    whether the delegate returns or raises; when the call raises, the whole
    object is as it was and nothing was done after the delegate call, so no
    summary was stored; no call but [add_to_short_term] changes the buffer;
    and [add_to_short_term] below the limit removes nothing. *)
Theorem summarization_leaves_buffer (llm : LLMModule) (w : World) :
  short_term (self (snd (maybe_summarize_short_term llm w)))
    = short_term (self w) /\
  (forall e : exn,
      fst (maybe_summarize_short_term llm w) = Raise e ->
      self (snd (maybe_summarize_short_term llm w)) = self w /\
      trace (snd (maybe_summarize_short_term llm w))
        = (trace w ++ failed_firing_events (short_term (self w)))%list) /\
  (forall c : call,
      (forall role content, c <> AddToShortTerm role content) ->
      short_term (self (after c w)) = short_term (self w)) /\
  (forall role content : string,
      Z.of_nat (List.length (short_term (self w))) < short_term_limit (self w) ->
      short_term (self (snd (add_to_short_term role content w)))
        = (short_term (self w) ++ [rendered_turn (role, content)])%list).
Proof.
  split; [| split; [| split]].
  - rewrite maybe_summarize_self. reflexivity.
  - intros e Hraise. rewrite (maybe_summarize_raise_inv llm w e Hraise).
    split; reflexivity.
  - intros c Hc. rewrite (after_self c w Hc). reflexivity.
  - intros role content Hroom.
    rewrite add_to_short_term_returns by lia. simpl.
    apply most_recent_all. rewrite length_app. simpl. lia.
Qed.

Lemma summarization_leaves_buffer_witness :
  fst (maybe_summarize_short_term (failing_llm "timeout") (after_user_turns 10))
    = Raise (DelegateError "timeout") /\
  self (snd (maybe_summarize_short_term (failing_llm "timeout")
               (after_user_turns 10)))
    = self (after_user_turns 10) /\
  trace (snd (maybe_summarize_short_term (failing_llm "timeout")
                (after_user_turns 10)))
    = (trace (after_user_turns 10)
         ++ failed_firing_events (short_term (self (after_user_turns 10))))%list.
Proof.
  split.
  - vm_compute. reflexivity.
  - apply (proj1 (proj2 (summarization_leaves_buffer
                           (failing_llm "timeout") (after_user_turns 10)))
             (DelegateError "timeout")).
    vm_compute. reflexivity.
Defined.

(** ** The long-term placeholders *)

(** C8. [get_relevant_memories] returns the empty list for every query and
    never raises, in every state of the manager, so with the store the code
    has, which holds no record and no backend; all it does is print one
    line. *)
Theorem get_relevant_memories_empty (query : string) (w : World) :
  get_relevant_memories query w =
    (Return [],
     mkWorld (self w)
             (trace w
                ++ [Printed ("[Memory] Searching for relevant memories for: "
                             ++ query)])%list) /\
  collection (self (fresh default_short_term_limit)) = None /\
  chroma_client (self (fresh default_short_term_limit)) = None.
Proof. repeat split. Qed.

(** No call ever sets the two handles. *)
Lemma after_all_handles (calls : list call) :
  forall w : World,
    collection (self (after_all calls w)) = collection (self w) /\
    chroma_client (self (after_all calls w)) = chroma_client (self w).
Proof.
  unfold after_all. induction calls as [| c rest IH]; intros w; simpl.
  - split; reflexivity.
  - destruct (IH (after c w)) as [Hcol Hcli]. rewrite Hcol, Hcli.
    destruct c as [role content | | llm | summary | query | msg mems];
      try (rewrite after_self; [split; reflexivity | intros; discriminate]).
    simpl.
    destruct (Z.le_gt_cases 0 (short_term_limit (self w))) as [Hlim | Hlim].
    + rewrite (add_to_short_term_returns role content w Hlim).
      split; reflexivity.
    + rewrite (add_to_short_term_negative_limit role content w Hlim).
      split; reflexivity.
Qed.

(** C10. Long-term memory does nothing at the interface:
    [store_long_term_memory] returns and leaves the object as it was, for
    every summary (it prints one line); after every sequence of calls, stores
    included, the store is still the empty placeholder and
    [get_relevant_memories] returns the empty list for every query; so a
    prompt built from its answer is the prompt built from no memories. *)
Theorem long_term_memory_is_noop (w : World) :
  (forall summary : string,
      store_long_term_memory summary w =
        (Return tt,
         mkWorld (self w)
                 (trace w
                    ++ [Printed ("[Memory] Storing summary in long-term DB: "
                                 ++ Py.slice_to 60 summary ++ "...")])%list)) /\
  (forall calls : list call,
      collection (self (after_all calls w)) = collection (self w)) /\
  (forall (calls : list call) (query : string),
      fst (get_relevant_memories query (after_all calls w)) = Return []) /\
  (forall (calls : list call) (msg : string),
      fst ((mems <- get_relevant_memories msg ;; build_llm_prompt msg mems)
             (after_all calls w))
        = fst (build_llm_prompt msg [] (after_all calls w))).
Proof.
  repeat split.
  intros calls. apply after_all_handles.
Qed.

(** ** The prompt composer *)

Lemma substring_prefix (b c : string) :
  substring 0 (String.length b) (b ++ c) = b.
Proof.
  induction b as [| ch b IH]; simpl.
  - destruct c; reflexivity.
  - rewrite IH. reflexivity.
Qed.

Lemma substring_after (a b c : string) :
  substring (String.length a) (String.length b) (a ++ b ++ c) = b.
Proof.
  induction a as [| ch a IH]; simpl.
  - apply substring_prefix.
  - exact IH.
Qed.

Lemma append_assoc (a b c : string) : (a ++ b) ++ c = a ++ b ++ c.
Proof. induction a as [| ch a IH]; simpl; [| rewrite IH]; reflexivity. Qed.

Lemma build_llm_prompt_laid_out (msg : string) (mems : list string) (w : World) :
  build_llm_prompt msg mems w =
    (Return (laid_out (Py.join Py.nl mems)
                      (Py.join Py.nl (short_term (self w))) msg),
     w).
Proof. reflexivity. Qed.

(** C6. [build_llm_prompt] is a function of its two arguments and of the
    lines of the short-term buffer: in two worlds with the same buffer, however
    their counters, limits, handles and traces differ, it returns the same
    string; it never raises; and it leaves each world as it was, so it changes
    no attribute, prints nothing and calls no collaborator. *)
Theorem build_llm_prompt_pure
    (user_message : string) (relevant_memories : list string) (w1 w2 : World) :
  short_term (self w1) = short_term (self w2) ->
  exists prompt : string,
    build_llm_prompt user_message relevant_memories w1 = (Return prompt, w1) /\
    build_llm_prompt user_message relevant_memories w2 = (Return prompt, w2).
Proof.
  intros Hbuf. eexists. split.
  - apply build_llm_prompt_laid_out.
  - rewrite Hbuf. apply build_llm_prompt_laid_out.
Qed.

Lemma build_llm_prompt_pure_witness :
  short_term (self scenario_world)
    = short_term (self (mkWorld (mkMemoryManager
                                   ["USER: a"; "AGENT: x"; "USER: b"] 7 None None 40)
                                [Printed "earlier"; LLMCall "earlier"])) /\
  exists prompt : string,
    build_llm_prompt "what now?" ["fact one"; "fact two"] scenario_world
      = (Return prompt, scenario_world) /\
    build_llm_prompt "what now?" ["fact one"; "fact two"]
        (mkWorld (mkMemoryManager
                    ["USER: a"; "AGENT: x"; "USER: b"] 7 None None 40)
                 [Printed "earlier"; LLMCall "earlier"])
      = (Return prompt,
         mkWorld (mkMemoryManager
                    ["USER: a"; "AGENT: x"; "USER: b"] 7 None None 40)
                 [Printed "earlier"; LLMCall "earlier"]).
Proof.
  split.
  - vm_compute. reflexivity.
  - apply (build_llm_prompt_pure "what now?" ["fact one"; "fact two"]
             scenario_world).
    vm_compute. reflexivity.
Defined.

Example prompt_of_the_scenario :
  fst (build_llm_prompt "and c?" [] scenario_world) =
    Return (Py.nl
            ++ "You are a helpful assistant. Below are relevant facts from memory:"
            ++ Py.nl ++ Py.nl ++ Py.nl
            ++ "Here is the recent conversation:" ++ Py.nl
            ++ "USER: a" ++ Py.nl ++ "AGENT: x" ++ Py.nl ++ "USER: b" ++ Py.nl
            ++ Py.nl
            ++ "Now the user says:" ++ Py.nl
            ++ "User: and c?" ++ Py.nl ++ Py.nl
            ++ "Please respond in a clear and concise manner." ++ Py.nl).
Proof. vm_compute. reflexivity. Qed.

Lemma append_nil_r (a : string) : a ++ "" = a.
Proof. induction a as [| ch a IH]; simpl; [| rewrite IH]; reflexivity. Qed.

(** The joined text of a list holds every element whole: the elements before
    it each followed by a line feed, the elements after it each preceded by
    one. *)
Lemma join_from (m : string) (rest : list string) :
  Py.join Py.nl (m :: rest) = m ++ glue (map (fun x => Py.nl ++ x) rest).
Proof.
  revert m. induction rest as [| a rest IH]; intros m.
  - simpl. rewrite append_nil_r. reflexivity.
  - change (Py.join Py.nl (m :: a :: rest))
      with (m ++ Py.nl ++ Py.join Py.nl (a :: rest)).
    rewrite IH. cbn [map glue]. rewrite !append_assoc. reflexivity.
Qed.

Lemma join_split (before : list string) (m : string) (rest : list string) :
  Py.join Py.nl (before ++ m :: rest)%list =
    glue (map (fun x => x ++ Py.nl) before)
    ++ m ++ glue (map (fun x => Py.nl ++ x) rest).
Proof.
  induction before as [| b before IH].
  - apply join_from.
  - change ((b :: before) ++ m :: rest)%list
      with (b :: (before ++ m :: rest))%list.
    assert (Hcons : exists x tl, (before ++ m :: rest)%list = x :: tl).
    { destruct before as [| x tl]; simpl; eauto. }
    destruct Hcons as [x [tl Hx]].
    assert (Hstep : Py.join Py.nl (b :: (before ++ m :: rest))%list
                    = b ++ Py.nl ++ Py.join Py.nl (before ++ m :: rest)%list).
    { rewrite Hx. reflexivity. }
    rewrite Hstep, IH. cbn [map glue]. rewrite !append_assoc. reflexivity.
Qed.

(** C7. [build_llm_prompt] returns one string: the heading of the facts, the
    facts section, the heading of the conversation, the conversation section,
    the heading of the message with the user's message, and the closing
    instruction, in this order.  The facts section holds every memory whole
    and in order, with one line feed between neighbours and nothing else; the
    conversation section holds every line of the buffer in the same way; so
    no part of the input is dropped.  Each of the three sections stands whole
    at the place the lengths before it give.  With no memories the facts
    section is the empty string between the same two headings, and with an
    empty buffer so is the conversation section. *)
Theorem build_llm_prompt_sections
    (user_message : string) (relevant_memories : list string) (w : World) :
  exists prompt facts recent : string,
    build_llm_prompt user_message relevant_memories w = (Return prompt, w) /\
    prompt = facts_heading ++ facts
             ++ conversation_heading ++ recent
             ++ message_heading ++ user_message
             ++ closing_instruction /\
    facts = Py.join Py.nl relevant_memories /\
    recent = Py.join Py.nl (short_term (self w)) /\
    (relevant_memories = [] -> facts = "") /\
    (forall (before : list string) (m : string) (rest : list string),
        relevant_memories = (before ++ m :: rest)%list ->
        facts = glue (map (fun x => x ++ Py.nl) before)
                ++ m ++ glue (map (fun x => Py.nl ++ x) rest)) /\
    (short_term (self w) = [] -> recent = "") /\
    (forall (before : list string) (line : string) (rest : list string),
        short_term (self w) = (before ++ line :: rest)%list ->
        recent = glue (map (fun x => x ++ Py.nl) before)
                 ++ line ++ glue (map (fun x => Py.nl ++ x) rest)) /\
    substring (String.length facts_heading) (String.length facts) prompt
      = facts /\
    substring (String.length (facts_heading ++ facts ++ conversation_heading))
              (String.length recent) prompt
      = recent /\
    substring (String.length (facts_heading ++ facts ++ conversation_heading
                              ++ recent ++ message_heading))
              (String.length user_message) prompt
      = user_message /\
    build_llm_prompt user_message [] w =
      (Return (facts_heading ++ ""
               ++ conversation_heading ++ recent
               ++ message_heading ++ user_message
               ++ closing_instruction), w).
Proof.
  exists (laid_out (Py.join Py.nl relevant_memories)
                   (Py.join Py.nl (short_term (self w))) user_message),
         (Py.join Py.nl relevant_memories),
         (Py.join Py.nl (short_term (self w))).
  split; [apply build_llm_prompt_laid_out |].
  split; [reflexivity |].
  split; [reflexivity |]. split; [reflexivity |].
  split; [intros ->; reflexivity |].
  split; [intros before m rest ->; apply join_split |].
  split; [intros ->; reflexivity |].
  split; [intros before line rest ->; apply join_split |].
  unfold laid_out.
  split; [apply substring_after |].
  split.
  - rewrite <- (substring_after
                  (facts_heading ++ Py.join Py.nl relevant_memories
                   ++ conversation_heading)
                  (Py.join Py.nl (short_term (self w)))
                  (message_heading ++ user_message ++ closing_instruction))
      at 3.
    rewrite !append_assoc. reflexivity.
  - split; [| reflexivity].
    rewrite <- (substring_after
                  (facts_heading ++ Py.join Py.nl relevant_memories
                   ++ conversation_heading
                   ++ Py.join Py.nl (short_term (self w)) ++ message_heading)
                  user_message closing_instruction)
      at 3.
    rewrite !append_assoc. reflexivity.
Qed.

Lemma build_llm_prompt_sections_witness :
  build_llm_prompt "and c?" ["fact one"; "fact two"] scenario_world =
    (Return (Py.nl
             ++ "You are a helpful assistant. Below are relevant facts from memory:"
             ++ Py.nl
             ++ "fact one" ++ Py.nl ++ "fact two" ++ Py.nl
             ++ Py.nl
             ++ "Here is the recent conversation:" ++ Py.nl
             ++ "USER: a" ++ Py.nl ++ "AGENT: x" ++ Py.nl ++ "USER: b" ++ Py.nl
             ++ Py.nl
             ++ "Now the user says:" ++ Py.nl
             ++ "User: and c?" ++ Py.nl
             ++ Py.nl
             ++ "Please respond in a clear and concise manner." ++ Py.nl),
     scenario_world).
Proof.
  destruct (build_llm_prompt_sections "and c?" ["fact one"; "fact two"]
              scenario_world)
    as (prompt & facts & recent & Hrun & Hprompt & _ & _ & _ & Hfacts
        & _ & Hrecent & _).
  rewrite Hrun, Hprompt,
    (Hfacts [] "fact one" ["fact two"] eq_refl),
    (Hrecent [] "USER: a" ["AGENT: x"; "USER: b"] eq_refl).
  reflexivity.
Defined.

(** ** Further properties of the buffer *)

Lemma after_all_cons (c : call) (calls : list call) (w : World) :
  after_all (c :: calls) w = after_all calls (after c w).
Proof. reflexivity. Qed.

Lemma most_recent_snoc_pos {A} (k : nat) (l : list A) (x : A) :
  (1 <= k)%nat ->
  most_recent k (l ++ [x])%list = (most_recent (k - 1) l ++ [x])%list.
Proof.
  intros Hk. unfold most_recent.
  rewrite skipn_app, length_app. simpl List.length.
  f_equal.
  - f_equal. lia.
  - replace (List.length l + 1 - k - List.length l)%nat with 0%nat by lia.
    reflexivity.
Qed.

Lemma most_recent_zero {A} (l : list A) : most_recent 0 l = [].
Proof.
  unfold most_recent. rewrite Nat.sub_0_r. apply skipn_all.
Qed.

(** The object after a sequence of interface calls, from a world within its
    limit: only the appends count. *)
Lemma after_all_self (calls : list call) :
  forall w : World,
    within_limit w ->
    self (after_all calls w) =
      mkMemoryManager
        (most_recent (Z.to_nat (short_term_limit (self w)))
           (short_term (self w) ++ map rendered_turn (appends_of calls))%list)
        (short_term_limit (self w)) (chroma_client (self w))
        (collection (self w))
        (user_message_count (self w) + user_calls (appends_of calls)).
Proof.
  induction calls as [| c rest IH]; intros w Hw.
  - destruct w as [[buf lim cli col cnt] tr]. unfold within_limit in Hw.
    simpl in *. unfold user_calls. simpl.
    rewrite app_nil_r, Z.add_0_r, most_recent_all by lia. reflexivity.
  - rewrite after_all_cons.
    destruct c as [role content | | llm | summary | query | msg mems].
    2-6: rewrite IH;
      [ rewrite after_self; [reflexivity | intros; discriminate]
      | unfold within_limit; rewrite after_self;
        [exact Hw | intros; discriminate] ].
    pose proof (within_limit_nonneg w Hw) as Hlim.
    simpl after. rewrite (add_to_short_term_returns role content w Hlim).
    simpl snd. rewrite (IH _ (added_within_limit role content w Hlim)).
    unfold added. simpl. rewrite most_recent_app, <- app_assoc. simpl.
    f_equal. unfold user_calls. simpl.
    destruct (is_user_role role); simpl List.length; lia.
Qed.

(** X1. On a new manager of capacity [N >= 0], after any sequence of calls of
    the six methods in any order, with delegates that return or raise and a
    caller that goes on after an exception, the buffer is the [N] last lines
    of the appends made, the counter is the number of appends by the user,
    the limit is still [N] and the two handles are still [None]. *)
Theorem interleaved_calls_keep_buffer_and_counter (N : Z) (calls : list call) :
  0 <= N ->
  self (after_all calls (fresh N)) =
    mkMemoryManager
      (most_recent (Z.to_nat N) (map rendered_turn (appends_of calls)))
      N None None
      (user_calls (appends_of calls)).
Proof.
  intros HN. rewrite (after_all_self calls _ (fresh_within_limit N HN)).
  reflexivity.
Qed.

Lemma interleaved_calls_keep_buffer_and_counter_witness :
  0 <= 2 /\
  self (after_all
          [ AddToShortTerm "User" "hi";
            MaybeSummarizeShortTerm (failing_llm "down");
            GetRelevantMemories "hi";
            BuildLlmPrompt "hi" [];
            AddToShortTerm "AI" "hello";
            StoreLongTermMemory "greeting";
            AddToShortTerm "User" "bye";
            GetShortTermContext ]
          (fresh 2)) =
    mkMemoryManager ["AI: hello"; "User: bye"] 2 None None 2.
Proof.
  split.
  - lia.
  - rewrite (interleaved_calls_keep_buffer_and_counter 2
               [ AddToShortTerm "User" "hi";
                 MaybeSummarizeShortTerm (failing_llm "down");
                 GetRelevantMemories "hi";
                 BuildLlmPrompt "hi" [];
                 AddToShortTerm "AI" "hello";
                 StoreLongTermMemory "greeting";
                 AddToShortTerm "User" "bye";
                 GetShortTermContext ]).
    + vm_compute. reflexivity.
    + lia.
Defined.

Lemma add_to_short_term_keeps_newest_aux (w : World) (role content : string) :
  1 <= short_term_limit (self w) ->
  exists older : list string,
    short_term (self (added role content w))
      = (older ++ [rendered_turn (role, content)])%list.
Proof.
  intros Hlim. eexists. simpl. apply most_recent_snoc_pos. lia.
Qed.

(** X2. With a limit of at least one, [add_to_short_term] returns from any
    state, whatever the buffer held, even more lines than the limit: the
    buffer is then the [limit - 1] newest of the old lines followed by the new
    line, so the new line is last and the buffer is within the limit again. *)
Theorem add_to_short_term_keeps_newest (w : World) (role content : string) :
  1 <= short_term_limit (self w) ->
  exists w' : World,
    add_to_short_term role content w = (Return tt, w') /\
    short_term (self w')
      = (most_recent (Z.to_nat (short_term_limit (self w)) - 1)
                     (short_term (self w))
           ++ [rendered_turn (role, content)])%list /\
    within_limit w' /\
    short_term_limit (self w') = short_term_limit (self w) /\
    trace w' = trace w.
Proof.
  intros Hlim. eexists. split.
  - apply add_to_short_term_returns. lia.
  - split; [| split; [| split]].
    + simpl. apply most_recent_snoc_pos. lia.
    + apply added_within_limit. lia.
    + reflexivity.
    + reflexivity.
Qed.

Lemma add_to_short_term_keeps_newest_witness :
  1 <= short_term_limit
         (self (mkWorld (mkMemoryManager ["a"; "b"; "c"; "d"] 2 None None 0) [])) /\
  exists w' : World,
    add_to_short_term "AI" "e"
      (mkWorld (mkMemoryManager ["a"; "b"; "c"; "d"] 2 None None 0) [])
      = (Return tt, w') /\
    short_term (self w') = ["d"; "AI: e"].
Proof.
  split.
  - simpl. lia.
  - destruct (add_to_short_term_keeps_newest
                (mkWorld (mkMemoryManager ["a"; "b"; "c"; "d"] 2 None None 0) [])
                "AI" "e") as [w' [Hrun [Hbuf _]]].
    + simpl. lia.
    + exists w'. split; [exact Hrun | exact Hbuf].
Defined.

(** X3. With the limit 0, [add_to_short_term] returns and leaves the buffer
    empty whatever it held: the line just appended is itself evicted.  A user
    line is counted all the same. *)
Theorem add_to_short_term_capacity_zero (w : World) (role content : string) :
  short_term_limit (self w) = 0 ->
  exists w' : World,
    add_to_short_term role content w = (Return tt, w') /\
    short_term (self w') = [] /\
    user_message_count (self w')
      = user_message_count (self w) + (if is_user_role role then 1 else 0).
Proof.
  intros Hlim. eexists. split.
  - apply add_to_short_term_returns. lia.
  - simpl. rewrite Hlim. split; [apply most_recent_zero | reflexivity].
Qed.

Lemma add_to_short_term_capacity_zero_witness :
  short_term_limit (self (fresh 0)) = 0 /\
  exists w' : World,
    add_to_short_term "user" "hello" (fresh 0) = (Return tt, w') /\
    short_term (self w') = [] /\
    user_message_count (self w') = 0 + 1.
Proof.
  split.
  - reflexivity.
  - apply (add_to_short_term_capacity_zero (fresh 0) "user" "hello").
    reflexivity.
Defined.

(** X4. With a negative limit, [add_to_short_term] raises [IndexError] in
    every state, for every role and content: the loop empties the buffer and
    pops once more.  The buffer is left empty and the counter is not
    incremented, also for a user line; so on such a manager the counter never
    moves and the summarization never fires. *)
Theorem add_to_short_term_negative_limit_raises
    (w : World) (role content : string) :
  short_term_limit (self w) < 0 ->
  fst (add_to_short_term role content w)
    = Raise (IndexError "pop from empty list") /\
  short_term (self (snd (add_to_short_term role content w))) = [] /\
  user_message_count (self (snd (add_to_short_term role content w)))
    = user_message_count (self w) /\
  (forall (calls : list call) (llm : LLMModule) (N : Z),
      N < 0 -> ~ fires llm (after_all calls (fresh N))).
Proof.
  intros Hlim.
  rewrite (add_to_short_term_negative_limit role content w Hlim). simpl.
  repeat split.
  intros calls llm N HN.
  assert (Hcount : forall cs w0, short_term_limit (self w0) < 0 ->
            user_message_count (self (after_all cs w0))
              = user_message_count (self w0)).
  { induction cs as [| c rest IH]; intros w0 Hw0; [reflexivity |].
    rewrite after_all_cons.
    destruct c as [r ct | | l | sm | q | m ms].
    2-6: rewrite IH; rewrite after_self;
      try (intros; discriminate); try reflexivity; exact Hw0.
    simpl after. rewrite (add_to_short_term_negative_limit r ct w0 Hw0).
    simpl snd. rewrite IH; [reflexivity | exact Hw0]. }
  rewrite fires_iff_condition, Hcount by exact HN.
  simpl. discriminate.
Qed.

Lemma add_to_short_term_negative_limit_raises_witness :
  short_term_limit
    (self (mkWorld (mkMemoryManager ["AI: x"; "User: y"] (-3) None None 4) [])) < 0 /\
  fst (add_to_short_term "User" "z"
         (mkWorld (mkMemoryManager ["AI: x"; "User: y"] (-3) None None 4) []))
    = Raise (IndexError "pop from empty list").
Proof.
  split.
  - simpl. lia.
  - apply (add_to_short_term_negative_limit_raises
             (mkWorld (mkMemoryManager ["AI: x"; "User: y"] (-3) None None 4) [])
             "User" "z").
    simpl. lia.
Defined.

(** ** The role test and the rendered line *)

Ltac ascii_cases c :=
  destruct c as [[] [] [] [] [] [] [] []];
  vm_compute; intros H; try discriminate H; auto.

Lemma lower_char_u (c : ascii) :
  Py.lower_char c = "u"%char -> c = "u"%char \/ c = "U"%char.
Proof. ascii_cases c. Qed.

Lemma lower_char_s (c : ascii) :
  Py.lower_char c = "s"%char -> c = "s"%char \/ c = "S"%char.
Proof. ascii_cases c. Qed.

Lemma lower_char_e (c : ascii) :
  Py.lower_char c = "e"%char -> c = "e"%char \/ c = "E"%char.
Proof. ascii_cases c. Qed.

Lemma lower_char_r (c : ascii) :
  Py.lower_char c = "r"%char -> c = "r"%char \/ c = "R"%char.
Proof. ascii_cases c. Qed.

(** X5. The role test of [add_to_short_term] holds of exactly the sixteen
    spellings of the four letters u, s, e, r in either case: nothing is
    stripped, so a role with a space, a colon or any other character around
    the word is not the user's. *)
Theorem user_role_is_the_word_in_any_case (role : string) :
  String.eqb (Py.lower role) "user" = true <->
  exists a b c d : ascii,
    role = String a (String b (String c (String d EmptyString))) /\
    (a = "u"%char \/ a = "U"%char) /\
    (b = "s"%char \/ b = "S"%char) /\
    (c = "e"%char \/ c = "E"%char) /\
    (d = "r"%char \/ d = "R"%char).
Proof.
  rewrite String.eqb_eq. split.
  - intros Hlow.
    destruct role as [| a [| b [| c [| d [| e rest]]]]];
      simpl in Hlow; try discriminate Hlow.
    injection Hlow as Ha Hb Hc Hd.
    exists a, b, c, d. split; [reflexivity |].
    repeat split.
    + apply lower_char_u, Ha.
    + apply lower_char_s, Hb.
    + apply lower_char_e, Hc.
    + apply lower_char_r, Hd.
  - intros (a & b & c & d & -> & Ha & Hb & Hc & Hd).
    destruct Ha as [-> | ->], Hb as [-> | ->], Hc as [-> | ->],
             Hd as [-> | ->]; reflexivity.
Qed.

Lemma user_role_is_the_word_in_any_case_witness :
  String.eqb (Py.lower "uSeR") "user" = true.
Proof.
  apply (proj2 (user_role_is_the_word_in_any_case "uSeR")).
  exists "u"%char, "S"%char, "e"%char, "R"%char.
  repeat split; auto.
Defined.

(** X6. The line stored for a turn determines the turn when roles carry no
    colon: two turns with colon-free roles and the same rendered line have the
    same role and the same content. *)
Theorem rendered_turn_injective (role1 role2 content1 content2 : string) :
  colon_free role1 ->
  colon_free role2 ->
  rendered_turn (role1, content1) = rendered_turn (role2, content2) ->
  role1 = role2 /\ content1 = content2.
Proof.
  unfold rendered_turn. simpl. revert role2.
  induction role1 as [| a r1 IH]; intros [| b r2] H1 H2 Heq; simpl in *.
  - injection Heq as ->. split; reflexivity.
  - injection Heq as Hb _. destruct H2 as [Hb' _]. now elim Hb'.
  - injection Heq as Ha _. destruct H1 as [Ha' _]. now elim Ha'.
  - injection Heq as -> Hrest.
    destruct (IH r2 (proj2 H1) (proj2 H2) Hrest) as [-> ->].
    split; reflexivity.
Qed.

Lemma rendered_turn_injective_witness :
  colon_free "User" /\ colon_free "User" /\
  rendered_turn ("User", "a: b") = rendered_turn ("User", "a: b") /\
  "User" = "User" /\ "a: b" = "a: b".
Proof.
  assert (Hfree : colon_free "User").
  { simpl. repeat split; discriminate. }
  split; [exact Hfree |]. split; [exact Hfree |].
  split; [reflexivity |].
  apply (rendered_turn_injective "User" "User" "a: b" "a: b" Hfree Hfree).
  reflexivity.
Defined.

(** Without the condition the line is ambiguous: a colon and a space in the
    role move the boundary. *)
Example rendered_turn_ambiguous :
  rendered_turn ("AI: User", "hello") = rendered_turn ("AI", "User: hello").
Proof. reflexivity. Qed.

(** ** Further properties of the trigger *)

Lemma next_is_no_multiple (n : Z) :
  positive_multiple 10 n -> ~ positive_multiple 10 (n + 1).
Proof.
  unfold positive_multiple. intros [Hpos Hmod] [_ Hmod'].
  pose proof (Z.div_mod n 10) as Hn.
  pose proof (Z.div_mod (n + 1) 10) as Hn'.
  lia.
Qed.

(** X7. Nothing records that a summary was made.  A call of
    [maybe_summarize_short_term] that fires is followed by another that fires,
    whatever the delegate did, and so is an append of a line that is not the
    user's; only an append by the user stops the firing, on the next call. *)
Theorem summarization_fires_until_next_user_line
    (llm llm' : LLMModule) (w : World) :
  (fires llm w -> fires llm' (snd (maybe_summarize_short_term llm w))) /\
  (forall role content : string,
      0 <= short_term_limit (self w) ->
      String.eqb (Py.lower role) "user" = false ->
      fires llm w ->
      fires llm' (snd (add_to_short_term role content w))) /\
  (forall role content : string,
      0 <= short_term_limit (self w) ->
      String.eqb (Py.lower role) "user" = true ->
      fires llm w ->
      ~ fires llm' (snd (add_to_short_term role content w))).
Proof.
  split; [| split].
  - rewrite !fires_iff_condition, maybe_summarize_self. trivial.
  - intros role content Hlim Hrole.
    rewrite !fires_iff_condition,
      (add_to_short_term_returns role content w Hlim).
    simpl. unfold is_user_role. rewrite Hrole, Z.add_0_r. trivial.
  - intros role content Hlim Hrole.
    rewrite !fires_iff_condition,
      (add_to_short_term_returns role content w Hlim).
    simpl. unfold is_user_role. rewrite Hrole, !trigger_condition_spec.
    apply next_is_no_multiple.
Qed.

Lemma summarization_fires_until_next_user_line_witness :
  fires (constant_llm "facts") (after_user_turns 10) /\
  fires (failing_llm "down")
    (snd (maybe_summarize_short_term (constant_llm "facts")
            (after_user_turns 10))).
Proof.
  assert (Hfires : fires (constant_llm "facts") (after_user_turns 10)).
  { unfold fires. vm_compute. discriminate. }
  split; [exact Hfires |].
  apply (proj1 (summarization_fires_until_next_user_line
                  (constant_llm "facts") (failing_llm "down")
                  (after_user_turns 10))).
  exact Hfires.
Defined.

(** X8. What the delegate is given is the buffer at the moment of the call:
    after a run of appends on a new manager of capacity [N >= 0] whose user
    lines number a positive multiple of ten, the delegate is called once, with
    the summarization prompt of the [N] last lines only; a line evicted before
    is never summarized.  When the delegate returns, the call returns, and the
    object is as the appends left it. *)
Theorem summarizer_sees_resident_lines_only
    (N : Z) (calls : list (string * string)) (llm : LLMModule)
    (summary : string) :
  0 <= N ->
  positive_multiple 10 (user_calls calls) ->
  generate_response_for_memory llm
    (summarization_prompt
       (Py.join Py.nl (most_recent (Z.to_nat N) (map rendered_turn calls))))
    = Return summary ->
  (add_all calls ;; maybe_summarize_short_term llm) (fresh N) =
    (Return tt,
     mkWorld
       (mkMemoryManager
          (most_recent (Z.to_nat N) (map rendered_turn calls))
          N None None (user_calls calls))
       (firing_events
          (most_recent (Z.to_nat N) (map rendered_turn calls)) summary)).
Proof.
  intros HN Hpos Hllm. unfold bind.
  rewrite (add_all_returns calls _ (fresh_within_limit N HN)). simpl.
  rewrite (maybe_summarize_stores llm _ summary).
  - reflexivity.
  - simpl. apply trigger_condition_spec, Hpos.
  - simpl. exact Hllm.
Qed.

Lemma summarizer_sees_resident_lines_only_witness :
  0 <= 2 /\
  positive_multiple 10 (user_calls (repeat ("user", "hello") 10)) /\
  trace (snd ((add_all (repeat ("user", "hello") 10) ;;
               maybe_summarize_short_term (constant_llm "greetings"))
                (fresh 2))) =
    firing_events ["user: hello"; "user: hello"] "greetings".
Proof.
  assert (Hpos : positive_multiple 10 (user_calls (repeat ("user", "hello") 10))).
  { unfold positive_multiple. vm_compute. split; reflexivity. }
  split; [lia |]. split; [exact Hpos |].
  rewrite (summarizer_sees_resident_lines_only 2 (repeat ("user", "hello") 10)
             (constant_llm "greetings") "greetings");
    [reflexivity | lia | exact Hpos | reflexivity].
Defined.

(** ** Appending and checking, line after line *)

Lemma append_and_check_app (llm : LLMModule) (pre post : list (string * string))
    (w : World) :
  append_and_check llm (pre ++ post)%list w =
    (append_and_check llm pre ;; append_and_check llm post) w.
Proof.
  revert w. induction pre as [| [role content] pre IH]; intros w.
  - reflexivity.
  - simpl. unfold bind.
    destruct (add_to_short_term role content w) as [[[] | e] w1];
      [| reflexivity].
    destruct (maybe_summarize_short_term llm w1) as [[[] | e] w2];
      [| reflexivity].
    rewrite IH. reflexivity.
Qed.

Lemma trigger_condition_below_ten (n : Z) :
  0 <= n < 10 -> trigger_condition n = false.
Proof.
  intros Hn. destruct (trigger_condition n) eqn:Hc; [| reflexivity].
  apply trigger_condition_spec in Hc. destruct Hc as [Hpos Hmod].
  rewrite Z.mod_small in Hmod; lia.
Qed.

Lemma user_calls_nonneg (calls : list (string * string)) : 0 <= user_calls calls.
Proof. unfold user_calls. lia. Qed.

Lemma user_calls_cons (role content : string) (rest : list (string * string)) :
  user_calls ((role, content) :: rest)
    = (if is_user_role role then 1 else 0) + user_calls rest.
Proof.
  unfold user_calls. simpl. destruct (is_user_role role); simpl List.length; lia.
Qed.

Lemma user_calls_app (pre post : list (string * string)) :
  user_calls (pre ++ post)%list = user_calls pre + user_calls post.
Proof.
  unfold user_calls. rewrite filter_app, length_app. lia.
Qed.

(** While the counter stays below ten the checks do nothing: appending and
    checking is appending. *)
Lemma append_and_check_below_ten (llm : LLMModule)
    (turns : list (string * string)) :
  forall w : World,
    0 <= short_term_limit (self w) ->
    0 <= user_message_count (self w) ->
    user_message_count (self w) + user_calls turns < 10 ->
    append_and_check llm turns w = add_all turns w.
Proof.
  induction turns as [| [role content] rest IH]; intros w Hlim Hcnt Hlt.
  - reflexivity.
  - rewrite user_calls_cons in Hlt. pose proof (user_calls_nonneg rest).
    simpl. unfold bind at 1 3.
    rewrite (add_to_short_term_returns role content w Hlim).
    unfold bind at 1. rewrite maybe_summarize_idle.
    + apply IH; simpl; destruct (is_user_role role); lia.
    + apply trigger_condition_below_ten. simpl.
      destruct (is_user_role role); lia.
Qed.

(** X9. In a conversation of user lines on a new manager of capacity
    [N >= 0], with the check made after every line and a delegate that
    answers, every call returns and the delegate is called once for every ten
    lines: [n / 10] times after [n] lines. *)
Theorem delegate_called_every_tenth_user_line
    (llm : LLMModule) (turns : list (string * string)) (N : Z) :
  0 <= N ->
  never_raises llm ->
  Forall (fun t => String.eqb (Py.lower (fst t)) "user" = true) turns ->
  exists w' : World,
    append_and_check llm turns (fresh N) = (Return tt, w') /\
    llm_calls (trace w') = Z.of_nat (List.length turns) / 10 /\
    user_message_count (self w') = Z.of_nat (List.length turns).
Proof.
  intros HN Hllm Husers.
  assert (Hgen : forall w : World,
             0 <= short_term_limit (self w) ->
             0 <= user_message_count (self w) ->
             exists w' : World,
               append_and_check llm turns w = (Return tt, w') /\
               llm_calls (trace w')
                 = llm_calls (trace w)
                   + ((user_message_count (self w)
                       + Z.of_nat (List.length turns)) / 10
                      - user_message_count (self w) / 10) /\
               user_message_count (self w')
                 = user_message_count (self w) + Z.of_nat (List.length turns)).
  { induction Husers as [| [role content] rest Hrole _ IH]; intros w Hlim Hcnt.
    - exists w. split; [reflexivity |]. simpl List.length.
      rewrite Z.add_0_r. lia.
    - simpl in Hrole. simpl append_and_check. unfold bind at 1.
      rewrite (add_to_short_term_returns role content w Hlim).
      unfold bind at 1.
      assert (Hcount : user_message_count (self (added role content w))
                       = user_message_count (self w) + 1).
      { simpl. unfold is_user_role. rewrite Hrole. reflexivity. }
      destruct (trigger_condition
                  (user_message_count (self (added role content w)))) eqn:Hc.
      + destruct (Hllm (summarization_prompt
                          (Py.join Py.nl
                             (short_term (self (added role content w))))))
          as [summary Hsum].
        rewrite (maybe_summarize_stores llm _ summary Hc Hsum).
        match goal with
        | |- context [append_and_check llm rest ?w1] =>
            destruct (IH w1) as [w' [Hrun [Hcalls Hcnt']]]
        end.
        * simpl. exact Hlim.
        * cbn [self]. lia.
        * exists w'. split; [exact Hrun |].
          cbn [self trace] in Hcalls, Hcnt'.
          rewrite Hcount in Hcalls, Hcnt'.
          rewrite llm_calls_app in Hcalls.
          cbn [firing_events llm_calls] in Hcalls.
          cbn [added trace] in Hcalls.
          apply trigger_condition_spec in Hc. rewrite Hcount in Hc.
          destruct Hc as [_ Hmod].
          replace (Z.of_nat (List.length ((role, content) :: rest)))
            with (1 + Z.of_nat (List.length rest))
            by (simpl List.length; lia).
          pose proof (Z.div_mod (user_message_count (self w)) 10).
          pose proof (Z.div_mod (user_message_count (self w) + 1) 10).
          pose proof (Z.mod_pos_bound (user_message_count (self w)) 10).
          split; [| lia].
          rewrite Hcalls.
          replace (user_message_count (self w)
                   + (1 + Z.of_nat (List.length rest)))
            with (user_message_count (self w) + 1 + Z.of_nat (List.length rest))
            by lia.
          lia.
      + rewrite (maybe_summarize_idle llm _ Hc).
        destruct (IH (added role content w)) as [w' [Hrun [Hcalls Hcnt']]].
        * simpl. exact Hlim.
        * lia.
        * exists w'. split; [exact Hrun |].
          rewrite Hcount in Hcalls, Hcnt'.
          cbn [added trace] in Hcalls.
          replace (Z.of_nat (List.length ((role, content) :: rest)))
            with (1 + Z.of_nat (List.length rest))
            by (simpl List.length; lia).
          assert (Hno : ~ positive_multiple 10 (user_message_count (self w) + 1)).
          { intros Hp. apply trigger_condition_spec in Hp.
            rewrite Hcount in Hc. congruence. }
          unfold positive_multiple in Hno.
          pose proof (Z.div_mod (user_message_count (self w)) 10).
          pose proof (Z.div_mod (user_message_count (self w) + 1) 10).
          pose proof (Z.mod_pos_bound (user_message_count (self w)) 10).
          pose proof (Z.mod_pos_bound (user_message_count (self w) + 1) 10).
          split; [| lia].
          rewrite Hcalls.
          replace (user_message_count (self w)
                   + (1 + Z.of_nat (List.length rest)))
            with (user_message_count (self w) + 1 + Z.of_nat (List.length rest))
            by lia.
          lia. }
  destruct (Hgen (fresh N)) as [w' [Hrun [Hcalls Hcnt]]].
  - exact HN.
  - simpl. lia.
  - exists w'. split; [exact Hrun |]. simpl in Hcalls, Hcnt.
    split; [| exact Hcnt].
    rewrite Hcalls. change (0 / 10) with 0. lia.
Qed.

Lemma delegate_called_every_tenth_user_line_witness :
  0 <= 3 /\
  never_raises (constant_llm "facts") /\
  exists w' : World,
    append_and_check (constant_llm "facts")
      (repeat ("User", "hello") 25) (fresh 3) = (Return tt, w') /\
    llm_calls (trace w') = Z.of_nat (List.length (repeat ("User", "hello") 25)) / 10 /\
    user_message_count (self w')
      = Z.of_nat (List.length (repeat ("User", "hello") 25)).
Proof.
  assert (Hllm : never_raises (constant_llm "facts")).
  { intros prompt. exists "facts". reflexivity. }
  split; [lia |]. split; [exact Hllm |].
  apply (delegate_called_every_tenth_user_line (constant_llm "facts")
           (repeat ("User", "hello") 25) 3).
  - lia.
  - exact Hllm.
  - apply Forall_forall. intros t Ht. apply repeat_spec in Ht. subst t.
    reflexivity.
Defined.

(** X10. A delegate that raises ends the conversation at the tenth user
    line.  On a new manager of capacity [N >= 0], with the check made after
    every line: after lines of which nine are the user's, the next user line
    is appended and counted, the delegate is called with the buffer's lines,
    its exception leaves the run, and no later line is appended. *)
Theorem failing_delegate_stops_at_tenth_user_line
    (llm : LLMModule) (e : exn) (N : Z)
    (pre rest : list (string * string)) (role content : string) :
  0 <= N ->
  user_calls pre = 9 ->
  String.eqb (Py.lower role) "user" = true ->
  (forall prompt : string, generate_response_for_memory llm prompt = Raise e) ->
  append_and_check llm (pre ++ (role, content) :: rest)%list (fresh N) =
    (Raise e,
     mkWorld
       (mkMemoryManager
          (most_recent (Z.to_nat N)
             (map rendered_turn (pre ++ [(role, content)])%list))
          N None None 10)
       (failed_firing_events
          (most_recent (Z.to_nat N)
             (map rendered_turn (pre ++ [(role, content)])%list)))).
Proof.
  intros HN Hpre Hrole Hllm.
  rewrite append_and_check_app. unfold bind at 1.
  rewrite append_and_check_below_ten by (simpl; lia).
  rewrite (add_all_returns pre _ (fresh_within_limit N HN)).
  cbn [fresh init self short_term short_term_limit chroma_client collection
       user_message_count trace app].
  simpl append_and_check. unfold bind at 1.
  rewrite add_to_short_term_returns by (simpl; lia).
  unfold bind at 1.
  rewrite (maybe_summarize_raises llm _ e).
  - unfold added, is_user_role. rewrite Hrole. simpl.
    rewrite Hpre, most_recent_app, map_app. reflexivity.
  - apply trigger_condition_spec. simpl. unfold is_user_role.
    rewrite Hrole, Hpre. unfold positive_multiple. split; [lia | reflexivity].
  - apply Hllm.
Qed.

Lemma failing_delegate_stops_at_tenth_user_line_witness :
  0 <= 2 /\
  user_calls (repeat ("user", "hello") 9) = 9 /\
  fst (append_and_check (failing_llm "down")
         (repeat ("user", "hello") 9 ++ ("USER", "ten") :: [("user", "eleven")])%list
         (fresh 2))
    = Raise (DelegateError "down").
Proof.
  split; [lia |]. split; [vm_compute; reflexivity |].
  rewrite (failing_delegate_stops_at_tenth_user_line
             (failing_llm "down") (DelegateError "down") 2
             (repeat ("user", "hello") 9) [("user", "eleven")] "USER" "ten");
    [reflexivity | lia | vm_compute; reflexivity | reflexivity
    | intros prompt; reflexivity].
Defined.


(** ** The log line of [store_long_term_memory] *)

Lemma slice_to_prefix (n : nat) (s : string) :
  exists rest : string,
    s = Py.slice_to n s ++ rest /\
    String.length (Py.slice_to n s) = Nat.min n (String.length s).
Proof.
  unfold Py.slice_to. revert s.
  induction n as [| n IH]; intros s.
  - exists s. destruct s; split; reflexivity.
  - destruct s as [| c s].
    + exists "". split; reflexivity.
    + destruct (IH s) as [rest [Hs Hlen]]. exists rest. simpl. split.
      * rewrite <- Hs. reflexivity.
      * rewrite Hlen. reflexivity.
Qed.

Lemma slice_to_all (n : nat) (s : string) :
  (String.length s <= n)%nat -> Py.slice_to n s = s.
Proof.
  unfold Py.slice_to. revert s.
  induction n as [| n IH]; intros s Hlen.
  - destruct s; [reflexivity | simpl in Hlen; lia].
  - destruct s as [| c s]; [reflexivity |].
    simpl in *. rewrite IH by lia. reflexivity.
Qed.

(** X11. [store_long_term_memory] returns for every summary, the empty one
    included, changes nothing in the object, and prints one line that shows
    the first sixty characters of the summary and no more: a summary of sixty
    characters or fewer is shown whole, a longer one is cut at sixty, and the
    three dots follow in both cases. *)
Theorem store_long_term_memory_logs_sixty (summary : string) (w : World) :
  exists shown cut : string,
    summary = shown ++ cut /\
    String.length shown = Nat.min 60 (String.length summary) /\
    ((String.length summary <= 60)%nat -> shown = summary) /\
    store_long_term_memory summary w =
      (Return tt,
       mkWorld (self w)
         (trace w
            ++ [Printed ("[Memory] Storing summary in long-term DB: "
                           ++ shown ++ "...")])%list).
Proof.
  destruct (slice_to_prefix 60 summary) as [cut [Hsplit Hlen]].
  exists (Py.slice_to 60 summary), cut.
  split; [exact Hsplit |]. split; [exact Hlen |]. split.
  - apply slice_to_all.
  - reflexivity.
Qed.

Lemma store_long_term_memory_logs_sixty_witness :
  (String.length "short" <= 60)%nat /\
  store_long_term_memory "short" (fresh 10) =
    (Return tt,
     mkWorld (self (fresh 10))
       [Printed "[Memory] Storing summary in long-term DB: short..."]).
Proof.
  split.
  - simpl. lia.
  - destruct (store_long_term_memory_logs_sixty "short" (fresh 10))
      as (shown & cut & _ & _ & Hwhole & Hrun).
    rewrite Hrun, Hwhole; [reflexivity | simpl; lia].
Defined.

(** ** Further properties of the prompt *)

Lemma join_merge (a b : string) (rest : list string) :
  Py.join Py.nl (a :: b :: rest) = Py.join Py.nl ((a ++ Py.nl ++ b) :: rest).
Proof.
  destruct rest as [| c rest].
  - reflexivity.
  - cbn [Py.join]. rewrite !append_assoc. reflexivity.
Qed.

Lemma join_snoc (l : list string) (x : string) :
  Py.join Py.nl (l ++ [x])%list =
    match l with
    | [] => x
    | _ :: _ => Py.join Py.nl l ++ Py.nl ++ x
    end.
Proof.
  induction l as [| a l IH]; [reflexivity |].
  destruct l as [| b l]; [reflexivity |].
  change ((a :: b :: l) ++ [x])%list with (a :: (b :: l) ++ [x])%list.
  change (Py.join Py.nl (a :: (b :: l) ++ [x])%list)
    with (a ++ Py.nl ++ Py.join Py.nl ((b :: l) ++ [x])%list).
  rewrite IH.
  change (Py.join Py.nl (a :: b :: l))
    with (a ++ Py.nl ++ Py.join Py.nl (b :: l)).
  rewrite !append_assoc. reflexivity.
Qed.

(** X12. The prompt does not keep its parts apart: nothing is escaped.  Two
    memories give the prompt of the one memory that holds them with a line
    feed between, and so do two lines of the buffer.  And one memory made of a
    text [a], the conversation heading and a text [b], with an empty buffer,
    gives the prompt of the one memory [a] with a buffer whose only line is
    [b] followed by the conversation heading. *)
Theorem build_llm_prompt_is_ambiguous
    (user_message a b : string) (rest : list string) (w w1 w2 : World) :
  fst (build_llm_prompt user_message (a :: b :: rest) w)
    = fst (build_llm_prompt user_message ((a ++ Py.nl ++ b) :: rest) w) /\
  (short_term (self w1) = a :: b :: rest ->
   short_term (self w2) = (a ++ Py.nl ++ b) :: rest ->
   forall mems : list string,
     fst (build_llm_prompt user_message mems w1)
       = fst (build_llm_prompt user_message mems w2)) /\
  (short_term (self w1) = [] ->
   short_term (self w2) = [b ++ conversation_heading] ->
   fst (build_llm_prompt user_message [a ++ conversation_heading ++ b] w1)
     = fst (build_llm_prompt user_message [a] w2)).
Proof.
  split; [| split].
  - rewrite !build_llm_prompt_laid_out, join_merge. reflexivity.
  - intros H1 H2 mems.
    rewrite !build_llm_prompt_laid_out, H1, H2, join_merge. reflexivity.
  - intros H1 H2. rewrite !build_llm_prompt_laid_out, H1, H2.
    cbn [fst Py.join]. unfold laid_out. rewrite !append_assoc. reflexivity.
Qed.

Lemma build_llm_prompt_is_ambiguous_witness :
  short_term (self (mkWorld (mkMemoryManager ["AI: yes"; "User: no"] 5 None None 1) []))
    = ["AI: yes"; "User: no"] /\
  fst (build_llm_prompt "ok?" []
         (mkWorld (mkMemoryManager ["AI: yes"; "User: no"] 5 None None 1) []))
    = fst (build_llm_prompt "ok?" []
             (mkWorld (mkMemoryManager ["AI: yes" ++ Py.nl ++ "User: no"]
                                       5 None None 0) [])).
Proof.
  split; [reflexivity |].
  apply (proj1 (proj2 (build_llm_prompt_is_ambiguous "ok?" "AI: yes" "User: no" []
                         (fresh 1)
                         (mkWorld (mkMemoryManager ["AI: yes"; "User: no"]
                                                   5 None None 1) [])
                         (mkWorld (mkMemoryManager
                                     ["AI: yes" ++ Py.nl ++ "User: no"]
                                     5 None None 0) [])))).
  - reflexivity.
  - reflexivity.
Defined.

(** X13. After a run of appends on a new manager of capacity [N >= 0],
    [get_short_term_context] returns the [N] last lines, and the prompt's
    conversation section is these lines joined by line feeds; neither call
    changes the world the appends left. *)
Theorem context_and_prompt_after_appends
    (N : Z) (calls : list (string * string))
    (user_message : string) (relevant_memories : list string) :
  0 <= N ->
  let recent := most_recent (Z.to_nat N) (map rendered_turn calls) in
  let w' := mkWorld (mkMemoryManager recent N None None (user_calls calls)) [] in
  (add_all calls ;; get_short_term_context) (fresh N) = (Return recent, w') /\
  (add_all calls ;; build_llm_prompt user_message relevant_memories) (fresh N) =
    (Return (facts_heading ++ Py.join Py.nl relevant_memories
             ++ conversation_heading ++ Py.join Py.nl recent
             ++ message_heading ++ user_message
             ++ closing_instruction),
     w').
Proof.
  intros HN recent w'. unfold bind.
  rewrite (add_all_returns calls _ (fresh_within_limit N HN)).
  split; reflexivity.
Qed.

Lemma context_and_prompt_after_appends_witness :
  0 <= 1 /\
  (add_all [("User", "a"); ("AI", "b")] ;; get_short_term_context) (fresh 1)
    = (Return ["AI: b"], mkWorld (mkMemoryManager ["AI: b"] 1 None None 1) []).
Proof.
  split; [lia |].
  apply (proj1 (context_and_prompt_after_appends 1 [("User", "a"); ("AI", "b")]
                  "" [] ltac:(lia))).
Defined.

(** X14. A user message appended to the buffer before the prompt is built
    stands twice in the prompt.  With a limit of at least one, after
    [add_to_short_term "User" m] the conversation section ends with the line
    [User: m], and the message section that follows is [User: m] again. *)
Theorem appended_message_is_in_prompt_twice
    (w : World) (user_message : string) (relevant_memories : list string) :
  1 <= short_term_limit (self w) ->
  exists (earlier : string) (w' : World),
    (add_to_short_term "User" user_message ;;
     build_llm_prompt user_message relevant_memories) w =
      (Return (facts_heading ++ Py.join Py.nl relevant_memories
               ++ conversation_heading
               ++ earlier ++ ("User: " ++ user_message)
               ++ Py.nl ++ Py.nl ++ "Now the user says:" ++ Py.nl
               ++ ("User: " ++ user_message)
               ++ closing_instruction),
       w') /\
    user_message_count (self w') = user_message_count (self w) + 1.
Proof.
  intros Hlim.
  destruct (add_to_short_term_keeps_newest_aux w "User" user_message Hlim)
    as [older Hbuf].
  exists (match older with
          | [] => ""
          | _ :: _ => Py.join Py.nl older ++ Py.nl
          end), (added "User" user_message w).
  unfold bind. rewrite add_to_short_term_returns by lia.
  rewrite build_llm_prompt_laid_out, Hbuf, join_snoc.
  split; [| reflexivity].
  f_equal. f_equal. unfold laid_out.
  destruct older as [| o older].
  - cbn [rendered_turn fst snd]. rewrite !append_assoc. reflexivity.
  - cbn [rendered_turn fst snd]. rewrite !append_assoc. reflexivity.
Qed.

Lemma appended_message_is_in_prompt_twice_witness :
  1 <= short_term_limit (self (fresh 1)) /\
  exists (earlier : string) (w' : World),
    (add_to_short_term "User" "hi" ;; build_llm_prompt "hi" []) (fresh 1) =
      (Return (facts_heading ++ Py.join Py.nl []
               ++ conversation_heading
               ++ earlier ++ ("User: " ++ "hi")
               ++ Py.nl ++ Py.nl ++ "Now the user says:" ++ Py.nl
               ++ ("User: " ++ "hi")
               ++ closing_instruction),
       w') /\
    user_message_count (self w') = user_message_count (self (fresh 1)) + 1.
Proof.
  split.
  - simpl. lia.
  - apply (appended_message_is_in_prompt_twice (fresh 1) "hi" []).
    simpl. lia.
Defined.

(** ** The buffer as a list object: what a caller holds *)

Lemma read_write_same (st : Shared.Store) (a : Shared.address) (v : list string) :
  Shared.read (Shared.write st a v) a = v.
Proof. unfold Shared.read, Shared.write. simpl. rewrite Nat.eqb_refl. reflexivity. Qed.

Lemma read_write_other (st : Shared.Store) (a a' : Shared.address)
    (v : list string) :
  a' <> a -> Shared.read (Shared.write st a v) a' = Shared.read st a'.
Proof.
  intros Hne. unfold Shared.read, Shared.write. simpl.
  destruct (Nat.eqb_spec a' a); [contradiction | reflexivity].
Qed.

(** The two embeddings agree on [add_to_short_term], whether it returns or
    raises. *)
Lemma shared_add_refines (role content : string) (m : Shared.Manager)
    (st : Shared.Store) (tr : list event) :
  add_to_short_term role content (mkWorld (shared_view m st) tr) =
    (fst (fst (Shared.add_to_short_term role content m st)),
     mkWorld (shared_view (snd (fst (Shared.add_to_short_term role content m st)))
                          (snd (Shared.add_to_short_term role content m st)))
             tr).
Proof.
  unfold Shared.add_to_short_term. rewrite read_write_same. run_py.
  destruct (evict (Shared.short_term_limit m) _) as [[[] | e] buf].
  - destruct (String.eqb (Py.lower role) "user"); simpl;
      unfold shared_view, Shared.read; simpl;
      rewrite Nat.eqb_refl; reflexivity.
  - simpl. unfold shared_view, Shared.read. simpl.
    rewrite Nat.eqb_refl. reflexivity.
Qed.

(** One append on the list object, with a limit that is not negative. *)
Lemma shared_add_returns (role content : string) (m : Shared.Manager)
    (st : Shared.Store) :
  0 <= Shared.short_term_limit m ->
  exists (m' : Shared.Manager) (st' : Shared.Store),
    Shared.add_to_short_term role content m st = (Return tt, m', st') /\
    Shared.short_term m' = Shared.short_term m /\
    Shared.short_term_limit m' = Shared.short_term_limit m /\
    Shared.user_message_count m'
      = Shared.user_message_count m + (if is_user_role role then 1 else 0) /\
    Shared.read st' (Shared.short_term m)
      = most_recent (Z.to_nat (Shared.short_term_limit m))
          (Shared.read st (Shared.short_term m)
             ++ [rendered_turn (role, content)])%list /\
    Shared.next_address st' = Shared.next_address st /\
    (forall a : Shared.address,
        a <> Shared.short_term m -> Shared.read st' a = Shared.read st a).
Proof.
  intros Hlim. unfold Shared.add_to_short_term.
  rewrite read_write_same, (evict_most_recent _ Hlim).
  unfold is_user_role, rendered_turn. simpl fst. simpl snd.
  destruct (String.eqb (Py.lower role) "user");
    eexists; eexists; (split; [reflexivity |]);
    cbn [Shared.short_term Shared.short_term_limit Shared.user_message_count];
    (split; [reflexivity |]); (split; [reflexivity |]);
    (split; [lia |]);
    (split; [apply read_write_same |]);
    (split; [reflexivity |]);
    intros a Ha; rewrite !read_write_other by exact Ha; reflexivity.
Qed.

Lemma shared_add_all_returns (calls : list (string * string)) :
  forall (m : Shared.Manager) (st : Shared.Store),
    Z.of_nat (List.length (Shared.read st (Shared.short_term m)))
      <= Shared.short_term_limit m ->
    exists (m' : Shared.Manager) (st' : Shared.Store),
      Shared.add_all calls m st = (Return tt, m', st') /\
      Shared.short_term m' = Shared.short_term m /\
      Shared.short_term_limit m' = Shared.short_term_limit m /\
      Shared.user_message_count m'
        = Shared.user_message_count m + user_calls calls /\
      Shared.read st' (Shared.short_term m)
        = most_recent (Z.to_nat (Shared.short_term_limit m))
            (Shared.read st (Shared.short_term m)
               ++ map rendered_turn calls)%list /\
      Shared.next_address st' = Shared.next_address st /\
      (forall a : Shared.address,
          a <> Shared.short_term m -> Shared.read st' a = Shared.read st a).
Proof.
  induction calls as [| [role content] rest IH]; intros m st Hw.
  - exists m, st. split; [reflexivity |]. unfold user_calls. simpl.
    rewrite app_nil_r, most_recent_all by lia.
    repeat split; lia.
  - assert (Hlim : 0 <= Shared.short_term_limit m) by lia.
    destruct (shared_add_returns role content m st Hlim)
      as (m1 & st1 & Hrun & Href & Hl & Hc & Hbuf & Hnext & Hframe).
    simpl. rewrite Hrun.
    destruct (IH m1 st1) as (m' & st' & Hrun' & Href' & Hl' & Hc' & Hbuf'
                               & Hnext' & Hframe').
    { rewrite Href, Hl, Hbuf, most_recent_length. lia. }
    exists m', st'. split; [exact Hrun' |].
    rewrite Href in *. rewrite Hl in *.
    split; [exact Href' |]. split; [exact Hl' |]. split.
    { rewrite Hc', Hc, user_calls_cons. lia. }
    split.
    { rewrite Hbuf', Hbuf, most_recent_app, <- app_assoc. reflexivity. }
    split; [lia |].
    intros a Ha. rewrite Hframe', Hframe by exact Ha. reflexivity.
Qed.

(** X15. The list [get_short_term_context] returns is the buffer itself, not
    a copy.  The list returned by a new manager of capacity [N >= 0] is empty
    when returned; after any run of appends the same object holds the [N]
    last lines, [get_short_term_context] still returns it, and no other list
    of the program has changed. *)
Theorem short_term_context_is_a_live_view
    (N : Z) (st : Shared.Store) (calls : list (string * string)) :
  0 <= N ->
  let m := fst (Shared.init N st) in
  let st0 := snd (Shared.init N st) in
  let ctx := Shared.get_short_term_context m st0 in
  Shared.read st0 ctx = [] /\
  exists (m' : Shared.Manager) (st' : Shared.Store),
    Shared.add_all calls m st0 = (Return tt, m', st') /\
    Shared.read st' ctx = most_recent (Z.to_nat N) (map rendered_turn calls) /\
    Shared.get_short_term_context m' st' = ctx /\
    (forall a : Shared.address, a <> ctx -> Shared.read st' a = Shared.read st a).
Proof.
  intros HN m st0 ctx.
  assert (Hempty : Shared.read st0 (Shared.short_term m) = []).
  { unfold st0, m, Shared.init, Shared.alloc, Shared.read. simpl.
    rewrite Nat.eqb_refl. reflexivity. }
  split; [exact Hempty |].
  destruct (shared_add_all_returns calls m st0)
    as (m' & st' & Hrun & Href & _ & _ & Hbuf & _ & Hframe).
  { rewrite Hempty. unfold m. simpl. exact HN. }
  exists m', st'. split; [exact Hrun |].
  rewrite Hempty in Hbuf.
  split; [exact Hbuf |]. split; [exact Href |].
  intros a Ha. rewrite (Hframe a Ha).
  unfold st0, Shared.init, Shared.alloc, Shared.read. simpl.
  destruct (Nat.eqb_spec a (Shared.next_address st)) as [Heq | _];
    [| reflexivity].
  exfalso. apply Ha. exact Heq.
Qed.

Lemma short_term_context_is_a_live_view_witness :
  0 <= 2 /\
  exists (m' : Shared.Manager) (st' : Shared.Store),
    Shared.add_all [("User", "a"); ("AI", "b"); ("User", "c")]
      (fst (Shared.init 2 (Shared.mkStore (fun _ => []) 0%nat)))
      (snd (Shared.init 2 (Shared.mkStore (fun _ => []) 0%nat)))
      = (Return tt, m', st') /\
    Shared.read st'
      (Shared.get_short_term_context
         (fst (Shared.init 2 (Shared.mkStore (fun _ => []) 0%nat)))
         (snd (Shared.init 2 (Shared.mkStore (fun _ => []) 0%nat))))
      = ["AI: b"; "User: c"].
Proof.
  split; [lia |].
  destruct (short_term_context_is_a_live_view 2
              (Shared.mkStore (fun _ => []) 0%nat)
              [("User", "a"); ("AI", "b"); ("User", "c")])
    as [_ (m' & st' & Hrun & Hbuf & _)]; [lia |].
  exists m', st'. split; [exact Hrun | exact Hbuf].
Defined.

(** X16. Two managers do not share a buffer: each [__init__] makes a list of
    its own, so a run of appends to the first manager leaves the buffer of a
    second manager, made before the run, as it was. *)
Theorem managers_have_separate_buffers
    (N1 N2 : Z) (st : Shared.Store) (calls : list (string * string)) :
  0 <= N1 ->
  let m1 := fst (Shared.init N1 st) in
  let st1 := snd (Shared.init N1 st) in
  let m2 := fst (Shared.init N2 st1) in
  let st2 := snd (Shared.init N2 st1) in
  Shared.short_term m1 <> Shared.short_term m2 /\
  exists (m1' : Shared.Manager) (st' : Shared.Store),
    Shared.add_all calls m1 st2 = (Return tt, m1', st') /\
    Shared.read st' (Shared.short_term m1)
      = most_recent (Z.to_nat N1) (map rendered_turn calls) /\
    Shared.read st' (Shared.short_term m2) = [].
Proof.
  intros HN m1 st1 m2 st2.
  assert (Hne : Shared.short_term m1 <> Shared.short_term m2).
  { unfold m1, m2, st1, Shared.init, Shared.alloc. simpl. lia. }
  assert (H1 : Shared.read st2 (Shared.short_term m1) = []).
  { unfold st2, m1, st1, Shared.init, Shared.alloc, Shared.read. simpl.
    destruct (Nat.eqb_spec (Shared.next_address st) (S (Shared.next_address st)));
      [lia |].
    rewrite Nat.eqb_refl. reflexivity. }
  assert (H2 : Shared.read st2 (Shared.short_term m2) = []).
  { unfold st2, m2, st1, Shared.init, Shared.alloc, Shared.read. simpl.
    rewrite Nat.eqb_refl. reflexivity. }
  split; [exact Hne |].
  destruct (shared_add_all_returns calls m1 st2)
    as (m' & st' & Hrun & _ & _ & _ & Hbuf & _ & Hframe).
  { rewrite H1. unfold m1. simpl. exact HN. }
  exists m', st'. split; [exact Hrun |]. split.
  - rewrite Hbuf, H1. reflexivity.
  - rewrite Hframe; [exact H2 |]. intros Heq. apply Hne. symmetry. exact Heq.
Qed.

Lemma managers_have_separate_buffers_witness :
  0 <= 5 /\
  Shared.short_term (fst (Shared.init 5 (Shared.mkStore (fun _ => []) 0%nat)))
  <> Shared.short_term
       (fst (Shared.init 5
               (snd (Shared.init 5 (Shared.mkStore (fun _ => []) 0%nat))))).
Proof.
  split; [lia |].
  apply (managers_have_separate_buffers 5 5 (Shared.mkStore (fun _ => []) 0%nat) []).
  lia.
Defined.
